(** * PDF Genie: the upload pipeline of [main.py]

    The program is a FastAPI service with one interesting route,
    [POST /upload]: validate the upload, extract its text with PyPDF2, check
    that there is enough text, send it to the Gemini service, answer.

    Python values are modelled as the program has them: a [str] is a list of
    Unicode code points, [bytes] a list of bytes, an exception a value of
    [PyExc], a JSON payload an association list.  The two libraries the
    program calls (PyPDF2 and google-genai) are not part of the repository;
    they are variables of the section [Pipeline].  Every call into one of
    them is recorded in a trace, so that "the generator was not invoked" is a
    statement about the trace.  [JSONResponse(...)] renders its body when it
    is built, so it is modelled with [json.dumps] and the strict UTF-8
    encoder: a surrogate code point in the payload makes it raise. *)

From Stdlib Require Import List ZArith NArith QArith Lia Bool.
From Stdlib Require Import Strings.String Strings.Ascii Strings.Byte DecimalString.
Import ListNotations.

Set Implicit Arguments.

(** ** Python strings *)

Module PyStr.

(** A code point, 0 .. 0x10FFFF. *)
Definition pychar := N.

Definition pystr := list pychar.

(** An ASCII literal of the source as a [str]. *)
Definition lit (s : string) : pystr :=
  map N_of_ascii (list_ascii_of_string s).

(** ["\n"] *)
Definition nl : pystr := [10%N].

(** [len(s)] *)
Definition len (s : pystr) : Z := Z.of_nat (List.length s).

(** [s == t] *)
Fixpoint eqb (s t : pystr) : bool :=
  match s, t with
  | [], [] => true
  | c :: s', d :: t' => N.eqb c d && eqb s' t'
  | _, _ => false
  end.

(** [c.isspace()]: the characters [str.strip()] removes when it is called
    without an argument (CPython's [_PyUnicode_IsWhitespace]). *)
Definition isspace (c : pychar) : bool :=
  ((9 <=? c) && (c <=? 13)
   || (28 <=? c) && (c <=? 32)
   || (c =? 133) || (c =? 160) || (c =? 5760)
   || (8192 <=? c) && (c <=? 8202)
   || (c =? 8232) || (c =? 8233) || (c =? 8239) || (c =? 8287)
   || (c =? 12288))%N.

(** [s.lstrip()] *)
Fixpoint lstrip (s : pystr) : pystr :=
  match s with
  | [] => []
  | c :: s' => if isspace c then lstrip s' else s
  end.

(** [s.rstrip()] *)
Definition rstrip (s : pystr) : pystr := rev (lstrip (rev s)).

(** [s.strip()] *)
Definition strip (s : pystr) : pystr := rstrip (lstrip s).

(** [s[:n]]: the first [n] characters, or all but the last [-n] when [n]
    is negative. *)
Definition slice_to (n : Z) (s : pystr) : pystr :=
  if (0 <=? n)%Z then firstn (Z.to_nat n) s
  else firstn (List.length s - Z.to_nat (- n)) s.

(** [bool(s)]: a string is truthy when it is not empty. *)
Definition truthy (s : pystr) : bool :=
  match s with [] => false | _ :: _ => true end.

(** Decimal rendering of an integer, as [str(n)] gives it. *)
Definition of_int (z : Z) : pystr :=
  lit (DecimalString.NilZero.string_of_int (Z.to_int z)).

(** A surrogate code point: what [s.encode("utf-8")] refuses. *)
Definition is_surrogate (c : pychar) : bool :=
  ((0xD800 <=? c) && (c <=? 0xDFFF))%N.

(** [s.encode("utf-8")] succeeds. *)
Definition utf8_encodable (s : pystr) : bool :=
  forallb (fun c => negb (is_surrogate c)) s.

(** One lowercase hexadecimal digit. *)
Definition hex_digit (n : N) : pychar :=
  (if n <? 10 then 48 + n else 87 + n)%N.

(** [format(c, "04x")] for a code point below 0x10000. *)
Definition hex4 (c : pychar) : pystr :=
  [hex_digit ((c / 4096) mod 16); hex_digit ((c / 256) mod 16);
   hex_digit ((c / 16) mod 16); hex_digit (c mod 16)]%N.

(** A string has no leading whitespace. *)
Definition clean_head (s : pystr) : Prop :=
  match s with
  | [] => True
  | c :: _ => isspace c = false
  end.

(** A string has no trailing whitespace. *)
Definition clean_last (s : pystr) : Prop := clean_head (rev s).

End PyStr.

Import PyStr.

(** ** Exceptions, results, and the trace of library calls *)

(** [bytes] *)
Definition bytes := list byte.

(** The exceptions the program distinguishes: FastAPI's [HTTPException]
    and every other subclass of [Exception], of which only [str(e)] is ever
    used. *)
Inductive PyExc : Type :=
| Exception (msg : pystr)
| HTTPException (status_code : Z) (detail : pystr).

(** [str(e)].  Starlette renders an [HTTPException] as
    [f"{status_code}: {detail}"]. *)
Definition exc_str (e : PyExc) : pystr :=
  match e with
  | Exception msg => msg
  | HTTPException status_code detail => of_int status_code ++ lit ": " ++ detail
  end.

(** [len(b)] *)
Definition len_bytes (b : bytes) : Z := Z.of_nat (List.length b).

(** What a call does: it returns a value or raises. *)
Inductive Result (A : Type) : Type :=
| Return (a : A)
| Raise (e : PyExc).

Arguments Raise {A} e.

(** [types.GenerateContentConfig(...)] *)
Record GenerateContentConfig : Type := {
  system_instruction : pystr;
  temperature : Q;
  max_output_tokens : Z
}.

(** The arguments of [client.models.generate_content]; [contents] is the
    text of the single user part. *)
Record GenerateContentCall : Type := {
  model : pystr;
  contents : pystr;
  config : GenerateContentConfig
}.

(** The response object; [response.text] is [None] or a string. *)
Record GenerateContentResponse : Type := {
  text : option pystr
}.

(** A call into one of the two libraries. *)
Inductive Call : Type :=
| CallPdfReader (pdf_file : bytes)
| CallExtractText (page_num : nat)
| CallGenerateContent (req : GenerateContentCall).

(** The state a request runs in: the library calls made so far, oldest
    first.  The program has no other mutable state. *)
Definition World := list Call.

(** The requests sent to the generation service. *)
Fixpoint generation_calls (w : World) : list GenerateContentCall :=
  match w with
  | [] => []
  | CallGenerateContent req :: w' => req :: generation_calls w'
  | _ :: w' => generation_calls w'
  end.

(** Computations: state passing with exceptions. *)
Definition M (A : Type) : Type := World -> Result A * World.

Definition ret {A} (a : A) : M A := fun w => (Return a, w).

Definition raise {A} (e : PyExc) : M A := fun w => (Raise e, w).

Definition bind {A B} (c : M A) (k : A -> M B) : M B :=
  fun w =>
    match c w with
    | (Return a, w') => k a w'
    | (Raise e, w') => (Raise e, w')
    end.

(** [try: body / except Exception as e: handler]: both kinds of [PyExc]
    are subclasses of [Exception]. *)
Definition try_except {A} (body : M A) (handler : PyExc -> M A) : M A :=
  fun w =>
    match body w with
    | (Return a, w') => (Return a, w')
    | (Raise e, w') => handler e w'
    end.

Declare Scope py_scope.
Delimit Scope py_scope with py.
Notation "x <- c ;; k" := (bind c (fun x => k))
  (at level 61, c at next level, right associativity) : py_scope.

(** ** HTTP values *)

Inductive JsonValue : Type :=
| JNull
| JBool (b : bool)
| JInt (n : Z)
| JStr (s : pystr).

(** [JSONResponse(status_code=..., content={...})]; the dict keeps its
    insertion order. *)
Record JSONResponse : Type := {
  status_code : Z;
  content : list (string * JsonValue)
}.

(** [content[key]] *)
Fixpoint dict_get (d : list (string * JsonValue)) (key : string) : option JsonValue :=
  match d with
  | [] => None
  | (k, v) :: d' => if String.eqb k key then Some v else dict_get d' key
  end.

(** FastAPI's [UploadFile]: [read] is the body [await file.read()] gives. *)
Record UploadFile : Type := {
  filename : option pystr;
  content_type : option pystr;
  read : bytes
}.

(** An optional string as JSON. *)
Definition json_of_opt (s : option pystr) : JsonValue :=
  match s with
  | Some t => JStr t
  | None => JNull
  end.

(** [json.dumps] of one character of a string with [ensure_ascii=False]:
    the quote, the backslash and the control characters are escaped,
    everything else is kept. *)
Definition json_escape_char (c : pychar) : pystr :=
  (if c =? 34 then [92; 34]
   else if c =? 92 then [92; 92]
   else if c =? 10 then [92; 110]
   else if c =? 13 then [92; 114]
   else if c =? 9 then [92; 116]
   else if c =? 8 then [92; 98]
   else if c =? 12 then [92; 102]
   else if c <? 32 then [92; 117] ++ hex4 c
   else [c])%N.

Definition json_string (s : pystr) : pystr :=
  [34%N] ++ flat_map json_escape_char s ++ [34%N].

Definition json_value (v : JsonValue) : pystr :=
  match v with
  | JNull => lit "null"
  | JBool true => lit "true"
  | JBool false => lit "false"
  | JInt n => of_int n
  | JStr s => json_string s
  end.

(** The items of a dict, with [separators=(",", ":")]. *)
Fixpoint json_items (d : list (string * JsonValue)) : pystr :=
  match d with
  | [] => []
  | (k, v) :: rest =>
      json_string (lit k) ++ [58%N] ++ json_value v
      ++ match rest with
         | [] => []
         | _ :: _ => [44%N] ++ json_items rest
         end
  end.

(** [json.dumps(content, ensure_ascii=False, allow_nan=False, indent=None,
    separators=(",", ":"))], the text Starlette's [JSONResponse.render]
    encodes. *)
Definition json_dumps (d : list (string * JsonValue)) : pystr :=
  [123%N] ++ json_items d ++ [125%N].

(** The number of surrogates a string starts with. *)
Fixpoint surrogate_run (s : pystr) : nat :=
  match s with
  | [] => O
  | c :: s' => if is_surrogate c then S (surrogate_run s') else O
  end.

(** Where the strict UTF-8 encoder stops: the first run of surrogates of
    [s], as its start and its end, counted from [pos]. *)
Fixpoint first_surrogates (s : pystr) (pos : nat) : option (nat * nat) :=
  match s with
  | [] => None
  | c :: s' =>
      if is_surrogate c then Some (pos, S (pos + surrogate_run s'))
      else first_surrogates s' (S pos)
  end.

(** [str(e)] of the [UnicodeEncodeError] for the characters of [s] from
    [start] to [stop]. *)
Definition unicode_encode_error_str (s : pystr) (start stop : nat) : pystr :=
  if Nat.eqb stop (S start) then
    lit "'utf-8' codec can't encode character '\u" ++ hex4 (nth start s 0%N)
    ++ lit "' in position " ++ of_int (Z.of_nat start)
    ++ lit ": surrogates not allowed"
  else
    lit "'utf-8' codec can't encode characters in position "
    ++ of_int (Z.of_nat start) ++ lit "-" ++ of_int (Z.of_nat (stop - 1))
    ++ lit ": surrogates not allowed".

(** [JSONResponse(status_code=..., content=...)]: the constructor renders
    the body at once, [json.dumps(...).encode("utf-8")], and so raises when
    a string of the payload holds a surrogate. *)
Definition new_JSONResponse (status : Z) (d : list (string * JsonValue))
  : M JSONResponse :=
  match first_surrogates (json_dumps d) 0 with
  | None => ret {| status_code := status; content := d |}
  | Some (start, stop) =>
      raise (Exception (unicode_encode_error_str (json_dumps d) start stop))
  end.

(** The status line FastAPI answers with: the response's own status, the
    status of a raised [HTTPException], 500 for any other exception. *)
Definition http_status (r : Result JSONResponse) : Z :=
  match r with
  | Return resp => status_code resp
  | Raise (HTTPException s _) => s
  | Raise (Exception _) => 500
  end.

(** ** The pipeline *)

Local Open Scope Z_scope.
Local Open Scope py_scope.

(** [10 * 1024 * 1024], the size limit of [upload_pdf]. *)
Definition MAX_UPLOAD_BYTES : Z := 10 * 1024 * 1024.

(** The literals of the source. *)
Definition PDF_MEDIA_TYPE : pystr := lit "application/pdf".

Definition EXTRACT_ERROR_PREFIX : pystr := lit "Error extracting text from PDF: ".

Definition GENERATE_ERROR_PREFIX : pystr := lit "Error generating explanation: ".

Definition EMPTY_RESPONSE : pystr := lit "Empty response from Gemini AI".

Definition INVALID_TYPE_DETAIL : pystr :=
  lit "Invalid file type. Please upload a PDF file. " ++ [0x1F4C4%N].

Definition TOO_LARGE_DETAIL : pystr :=
  lit "File too large. Please upload a PDF smaller than 10MB. " ++ [0x1F6AB%N].

Definition LITTLE_TEXT_MESSAGE : pystr :=
  lit "Hmm, this PDF seems to be mostly images or has very little text. "
  ++ [0x1F914%N]
  ++ lit " PDF Genie works best with text-heavy documents!".

Definition UNEXPECTED_PREFIX : pystr :=
  lit "Oops! Something went wrong while processing your PDF. "
  ++ [0x1F605%N] ++ lit " Error: ".

Definition SYSTEM_INSTRUCTION : pystr :=
  lit "You are PDF Genie " ++ [0x1F9DE%N; 0x200D%N; 0x2642%N; 0xFE0F%N]
  ++ lit " Your job is to turn boring PDFs (manuals, legal docs, "
  ++ lit "textbooks, policies, reports) into LENGTHY, hilarious, meme-style explainers that "
  ++ lit "anyone can understand. Make your responses LONG and DETAILED - users want to read "
  ++ lit "extensive, entertaining content! Break down concepts with lots of examples, analogies, "
  ++ lit "and stories. Use tons of emojis, bullet points, numbered lists, and humor. "
  ++ lit "Add pop culture references, internet slang, and memes throughout. Write like you're "
  ++ lit "telling a funny story to your best friend, not a formal report. Include multiple "
  ++ lit "sections, elaborate on details, and make it as entertaining as possible. "
  ++ lit "The longer and funnier, the better! Think of it like creating viral TikTok content "
  ++ lit "but in text form. Use headings, subheadings, and lots of formatting to make it engaging.".

(** The fixed part of the user prompt, up to and including
    ["PDF CONTENT:\n"]. *)
Definition USER_PROMPT_PREFIX : pystr :=
  lit "Here's the content from a PDF that needs your magic touch! "
  ++ lit "Transform this into a LONG, entertaining explanation. "
  ++ lit "Make it extensive tons of examples, stories, and humor. "
  ++ lit "Users love reading long, funny content - so go wild with the details!"
  ++ nl ++ nl
  ++ lit "PDF CONTENT:" ++ nl.

(** The cut-off of [pdf_text[:12000]]. *)
Definition PROMPT_TEXT_LIMIT : Z := 12000.

Section Pipeline.

(** PyPDF2: a page object, [PdfReader(BytesIO(b))] with its [pages], and
    [page.extract_text()]. *)
Variable Page : Type.
Variable PdfReader : bytes -> Result (list Page).
Variable extract_text : Page -> Result pystr.

(** google-genai: [client.models.generate_content].  The answer may depend
    on everything that happened before the call. *)
Variable generate_content : World -> GenerateContentCall -> Result GenerateContentResponse.

Definition call_PdfReader (pdf_file : bytes) : M (list Page) :=
  fun w => (PdfReader pdf_file, w ++ [CallPdfReader pdf_file]).

Definition call_extract_text (page_num : nat) (page : Page) : M pystr :=
  fun w => (extract_text page, w ++ [CallExtractText page_num]).

Definition call_generate_content (req : GenerateContentCall) : M GenerateContentResponse :=
  fun w => (generate_content w req, w ++ [CallGenerateContent req]).

(** [pages[page_num]] *)
Definition getitem (pages : list Page) (page_num : nat) : M Page :=
  match nth_error pages page_num with
  | Some page => ret page
  | None => raise (Exception (lit "sequence index out of range"))
  end.

(** [range(n)] *)
Definition range (n : nat) : list nat := seq 0 n.

(** The body of [for page_num in range(len(pdf_reader.pages))], run over
    the page numbers still to visit. *)
Fixpoint for_page_num (pages : list Page) (page_nums : list nat)
  (text_content : pystr) : M pystr :=
  match page_nums with
  | [] => ret text_content
  | page_num :: rest =>
      page <- getitem pages page_num ;;
      t <- call_extract_text page_num page ;;
      for_page_num pages rest (text_content ++ (t ++ nl))
  end.

Definition extract_text_from_pdf (pdf_file : bytes) : M pystr :=
  try_except
    (pages <- call_PdfReader pdf_file ;;
     text_content <- for_page_num pages (range (List.length pages)) [] ;;
     ret (strip text_content))
    (fun e => raise (HTTPException 400 (EXTRACT_ERROR_PREFIX ++ exc_str e))).

(** The request [generate_meme_explanation] builds from [pdf_text]. *)
Definition generation_request (pdf_text : pystr) : GenerateContentCall :=
  {| model := lit "gemini-2.5-flash";
     contents := USER_PROMPT_PREFIX ++ slice_to PROMPT_TEXT_LIMIT pdf_text;
     config := {| system_instruction := SYSTEM_INSTRUCTION;
                  temperature := (9 # 10)%Q;
                  max_output_tokens := 2500 |} |}.

Definition generate_meme_explanation (pdf_text : pystr) : M pystr :=
  try_except
    (response <- call_generate_content (generation_request pdf_text) ;;
     match text response with
     | Some t => if truthy t then ret t else raise (Exception EMPTY_RESPONSE)
     | None => raise (Exception EMPTY_RESPONSE)
     end)
    (fun e => raise (HTTPException 500 (GENERATE_ERROR_PREFIX ++ exc_str e))).

(** [file.content_type == "application/pdf"] *)
Definition is_pdf_type (ct : option pystr) : bool :=
  match ct with
  | Some s => eqb s PDF_MEDIA_TYPE
  | None => false
  end.

(** The [try] block of [upload_pdf]. *)
Definition upload_pdf_try (file : UploadFile) (file_content : bytes) : M JSONResponse :=
  pdf_text <- extract_text_from_pdf file_content ;;
  if negb (truthy pdf_text) || (len (strip pdf_text) <? 50) then
    new_JSONResponse 200
      [("success"%string, JBool false);
       ("message"%string, JStr LITTLE_TEXT_MESSAGE)]
  else
    explanation <- generate_meme_explanation pdf_text ;;
    new_JSONResponse 200
      [("success"%string, JBool true);
       ("explanation"%string, JStr explanation);
       ("original_length"%string, JInt (len pdf_text));
       ("filename"%string, json_of_opt (filename file))].

(** The two [except] clauses of [upload_pdf]: an [HTTPException] is raised
    again, anything else becomes a 500. *)
Definition upload_pdf_except (e : PyExc) : M JSONResponse :=
  match e with
  | HTTPException _ _ => raise e
  | Exception _ => raise (HTTPException 500 (UNEXPECTED_PREFIX ++ exc_str e))
  end.

Definition upload_pdf (file : UploadFile) : M JSONResponse :=
  if negb (is_pdf_type (content_type file)) then
    raise (HTTPException 400 INVALID_TYPE_DETAIL)
  else
    let file_content := read file in
    if len_bytes file_content >? MAX_UPLOAD_BYTES then
      raise (HTTPException 400 TOO_LARGE_DETAIL)
    else
      try_except (upload_pdf_try file file_content) upload_pdf_except.

End Pipeline.

(** ** What the extractor computes, without the trace *)

Section ExtractionOutcome.

Variable Page : Type.
Variable PdfReader : bytes -> Result (list Page).
Variable extract_text : Page -> Result pystr.

(** The text of the pages from left to right, each followed by a newline,
    appended to [acc]; the first page that fails decides the outcome. *)
Fixpoint pages_text (pages : list Page) (acc : pystr) : Result pystr :=
  match pages with
  | [] => Return acc
  | page :: rest =>
      match extract_text page with
      | Return t => pages_text rest (acc ++ (t ++ nl))
      | Raise e => Raise e
      end
  end.

(** The outcome of the extractor on [pdf_file]. *)
Definition extraction_outcome (pdf_file : bytes) : Result pystr :=
  match PdfReader pdf_file with
  | Return pages =>
      match pages_text pages [] with
      | Return text_content => Return (strip text_content)
      | Raise e => Raise (HTTPException 400 (EXTRACT_ERROR_PREFIX ++ exc_str e))
      end
  | Raise e => Raise (HTTPException 400 (EXTRACT_ERROR_PREFIX ++ exc_str e))
  end.

End ExtractionOutcome.

(** Every page's text followed by a newline, in order. *)
Definition join_pages (texts : list pystr) : pystr :=
  List.concat (map (fun t => t ++ nl) texts).

(** What [generate_meme_explanation] makes of the service's answer: a
    non-empty text is returned, everything else is a 500. *)
Definition generation_outcome (r : Result GenerateContentResponse) : Result pystr :=
  match r with
  | Return {| text := Some (c :: t) |} => Return (c :: t)
  | Return _ => Raise (HTTPException 500 (GENERATE_ERROR_PREFIX ++ EMPTY_RESPONSE))
  | Raise e => Raise (HTTPException 500 (GENERATE_ERROR_PREFIX ++ exc_str e))
  end.

(** The two payloads [upload_pdf] answers with. *)
Definition little_text_response : JSONResponse :=
  {| status_code := 200;
     content := [("success"%string, JBool false);
                 ("message"%string, JStr LITTLE_TEXT_MESSAGE)] |}.

Definition success_response (explanation : pystr) (original_length : Z)
  (name : option pystr) : JSONResponse :=
  {| status_code := 200;
     content := [("success"%string, JBool true);
                 ("explanation"%string, JStr explanation);
                 ("original_length"%string, JInt original_length);
                 ("filename"%string, json_of_opt name)] |}.

(** [filename.encode("utf-8")] succeeds, or there is no filename. *)
Definition utf8_encodable_opt (s : option pystr) : bool :=
  match s with
  | Some t => utf8_encodable t
  | None => true
  end.

(** What constructing [JSONResponse(status_code=status, content=d)] gives. *)
Definition response_outcome (status : Z) (d : list (string * JsonValue))
  : Result JSONResponse :=
  fst (new_JSONResponse status d []).

(** The rendered success payload up to the closing quote of the
    explanation. *)
Definition success_payload_head (explanation : pystr) : pystr :=
  [123%N] ++ json_string (lit "success") ++ [58%N] ++ lit "true" ++ [44%N]
  ++ json_string (lit "explanation") ++ [58%N] ++ [34%N]
  ++ flat_map json_escape_char explanation.

(** The texts with one newline between consecutive pages, and none after
    the last. *)
Fixpoint sep_join (texts : list pystr) : pystr :=
  match texts with
  | [] => []
  | t :: rest =>
      match rest with
      | [] => t
      | _ :: _ => t ++ nl ++ sep_join rest
      end
  end.

(** A string of whitespace only. *)
Definition blank (s : pystr) : Prop := Forall (fun c => isspace c = true) s.

Section PagesVisited.

Variable Page : Type.
Variable extract_text : Page -> Result pystr.

(** How many pages the loop asks for their text: all of them, or those up
    to and including the first that fails. *)
Fixpoint pages_visited (pages : list Page) : nat :=
  match pages with
  | [] => O
  | page :: rest =>
      match extract_text page with
      | Return _ => S (pages_visited rest)
      | Raise _ => 1%nat
      end
  end.

End PagesVisited.

(** ** Test doubles for the two libraries *)

Module Doubles.

(** A page of the fake reader is what extracting it gives. *)
Definition Page : Type := Result pystr.

Definition text_of_bytes (b : bytes) : pystr := map Byte.to_N b.

Definition bytes_of_string (s : string) : bytes := list_byte_of_string s.

(** The bytes before the first ["|"], and the bytes after it if there is
    one. *)
Fixpoint split_page (b : bytes) : bytes * option bytes :=
  match b with
  | [] => ([], None)
  | c :: b' =>
      if Byte.eqb c "|"%byte then ([], Some b')
      else let (page, rest) := split_page b' in (c :: page, rest)
  end.

(** A page whose bytes start with ["#"] cannot be extracted. *)
Definition page_of_bytes (b : bytes) : Page :=
  match b with
  | c :: _ =>
      if Byte.eqb c "#"%byte then Raise (Exception (lit "broken content stream"))
      else Return (text_of_bytes b)
  | [] => Return []
  end.

Fixpoint pages_of_bytes (fuel : nat) (b : bytes) : list Page :=
  match fuel with
  | O => []
  | S fuel' =>
      match split_page b with
      | (page, None) => [page_of_bytes page]
      | (page, Some rest) => page_of_bytes page :: pages_of_bytes fuel' rest
      end
  end.

(** A fake PDF is ["%PDF"] followed by the pages, separated by ["|"]. *)
Definition PdfReader (pdf_file : bytes) : Result (list Page) :=
  match pdf_file with
  | a :: b :: c :: d :: body =>
      if (Byte.eqb a "%" && Byte.eqb b "P" && Byte.eqb c "D" && Byte.eqb d "F")%byte
      then Return (pages_of_bytes (S (List.length body)) body)
      else Raise (Exception (lit "EOF marker not found"))
  | _ => Raise (Exception (lit "Cannot read an empty file"))
  end.

Definition extract_text (page : Page) : Result pystr := page.

(** A scripted generation service: the last character of the prompt
    chooses between an empty text, no text, a failure and an answer. *)
Definition generate_content (w : World) (req : GenerateContentCall)
  : Result GenerateContentResponse :=
  match rev (contents req) with
  | c :: _ =>
      if (c =? 33)%N then Return {| text := Some [] |}
      else if (c =? 63)%N then Return {| text := None |}
      else if (c =? 35)%N then Raise (Exception (lit "429 quota exceeded"))
      else Return {| text := Some (lit "LOL, so basically: " ++ firstn 12 (rev (firstn 12 (rev (contents req))))) |}
  | [] => Raise (Exception (lit "empty prompt"))
  end.

Definition upload (ct : string) (body : string) : UploadFile :=
  {| filename := Some (lit "doc.pdf");
     content_type := Some (lit ct);
     read := bytes_of_string body |}.

(** Two pages with ninety characters of text between them. *)
Definition long_pdf : string :=
  "%PDF  The warranty covers parts for two years. |Labour is covered for ninety days only.  ".

(** The same, but the service will answer with an empty text. *)
Definition long_pdf_empty_answer : string :=
  "%PDFThe warranty covers parts for two years.|Labour is covered for ninety days only!".

(** The same, but the service will fail. *)
Definition long_pdf_failing_service : string :=
  "%PDFThe warranty covers parts for two years.|Labour is covered for ninety days only#".

(** One page with four characters. *)
Definition short_pdf : string := "%PDF tiny ".

(** The second page cannot be extracted. *)
Definition broken_pdf : string := "%PDFpage one|#garbage|page three".

(** Not a PDF at all. *)
Definition not_a_pdf : string := "hello, world".

(** The page texts of the documents above. *)
Definition long_pdf_texts : list pystr :=
  [lit "  The warranty covers parts for two years. ";
   lit "Labour is covered for ninety days only.  "].

Definition long_pdf_empty_answer_texts : list pystr :=
  [lit "The warranty covers parts for two years.";
   lit "Labour is covered for ninety days only!"].

Definition long_pdf_failing_service_texts : list pystr :=
  [lit "The warranty covers parts for two years.";
   lit "Labour is covered for ninety days only#"].

Definition short_pdf_texts : list pystr := [lit " tiny "].

(** Three pages of spaces, as a scan without a text layer gives. *)
Definition blank_pdf : string := "%PDF   |  | ".

Definition blank_pdf_texts : list pystr := [lit "   "; lit "  "; lit " "].

(** An upload without a filename. *)
Definition unnamed (ct : string) (body : string) : UploadFile :=
  {| filename := None;
     content_type := Some (lit ct);
     read := bytes_of_string body |}.

(** The two-page document under a filename with a lone surrogate, as a
    client can send it. *)
Definition surrogate_name_upload : UploadFile :=
  {| filename := Some (lit "scan" ++ [0xDC80%N] ++ lit ".pdf");
     content_type := Some PDF_MEDIA_TYPE;
     read := bytes_of_string long_pdf |}.

(** An upload of PDF type with [n] zero bytes. *)
Definition zeros (n : Z) : UploadFile :=
  {| filename := Some (lit "zeros.pdf");
     content_type := Some PDF_MEDIA_TYPE;
     read := repeat "000"%byte (Z.to_nat n) |}.

End Doubles.
(** ** Facts about [strip] *)

Unset Implicit Arguments.

Section StripFacts.

Lemma eqb_eq (s t : pystr) : eqb s t = true <-> s = t.
Proof.
  revert t; induction s as [|c s IH]; intros [|d t]; simpl; split;
    try congruence; try reflexivity.
  - intros H; apply andb_prop in H as [Hc Hs].
    apply N.eqb_eq in Hc; apply IH in Hs; congruence.
  - intros H; inversion H; subst.
    rewrite N.eqb_refl; simpl; apply IH; reflexivity.
Qed.

Lemma lstrip_clean_head (s : pystr) : clean_head (lstrip s).
Proof.
  induction s as [|c s IH]; simpl; [exact I|].
  destruct (isspace c) eqn:E; [exact IH | exact E].
Qed.

Lemma lstrip_fixed (s : pystr) : clean_head s -> lstrip s = s.
Proof.
  destruct s as [|c s]; simpl; [reflexivity|].
  intros ->; reflexivity.
Qed.

Lemma lstrip_suffix (s : pystr) : exists p, s = p ++ lstrip s.
Proof.
  induction s as [|c s [p Hp]]; simpl.
  - exists []; reflexivity.
  - destruct (isspace c).
    + exists (c :: p); simpl; congruence.
    + exists []; reflexivity.
Qed.

Lemma rstrip_clean_last (s : pystr) : clean_last (rstrip s).
Proof.
  unfold clean_last, rstrip; rewrite rev_involutive; apply lstrip_clean_head.
Qed.

Lemma rstrip_fixed (s : pystr) : clean_last s -> rstrip s = s.
Proof.
  unfold clean_last, rstrip; intros H.
  rewrite (lstrip_fixed _ H); apply rev_involutive.
Qed.

Lemma rstrip_prefix (s : pystr) : exists q, s = rstrip s ++ q.
Proof.
  unfold rstrip; destruct (lstrip_suffix (rev s)) as [p Hp].
  exists (rev p).
  rewrite <- rev_app_distr, <- Hp; symmetry; apply rev_involutive.
Qed.

(** Trimming on the right keeps a clean head. *)
Lemma rstrip_keeps_clean_head (s : pystr) : clean_head s -> clean_head (rstrip s).
Proof.
  intros H; destruct (rstrip_prefix s) as [q Hq].
  destruct (rstrip s) as [|c r] eqn:E; [exact I|].
  rewrite Hq in H; exact H.
Qed.

Lemma strip_clean (s : pystr) : clean_head (strip s) /\ clean_last (strip s).
Proof.
  unfold strip; split.
  - apply rstrip_keeps_clean_head, lstrip_clean_head.
  - apply rstrip_clean_last.
Qed.

Lemma strip_fixed (s : pystr) : clean_head s -> clean_last s -> strip s = s.
Proof.
  intros Hh Hl; unfold strip; rewrite (lstrip_fixed _ Hh); apply rstrip_fixed, Hl.
Qed.

Lemma strip_idempotent (s : pystr) : strip (strip s) = strip s.
Proof.
  destruct (strip_clean s); apply strip_fixed; assumption.
Qed.

End StripFacts.

(** ** Facts about the trace *)

Lemma generation_calls_app (w1 w2 : World) :
  generation_calls (w1 ++ w2) = generation_calls w1 ++ generation_calls w2.
Proof.
  induction w1 as [|c w1 IH]; simpl; [reflexivity|].
  destruct c; simpl; rewrite IH; reflexivity.
Qed.

(** ** Facts about the extractor *)

Section ExtractorFacts.

Variable Page : Type.
Variable PdfReader : bytes -> Result (list Page).
Variable extract_text : Page -> Result pystr.

Local Abbreviation extract := (extract_text_from_pdf PdfReader extract_text).
Local Abbreviation page_ok := (fun page t => extract_text page = Return t).

(** The loop over page numbers visits the pages from left to right. *)
Lemma for_page_num_outcome (rest before : list Page) (acc : pystr) (w : World) :
  fst (for_page_num extract_text (before ++ rest)
         (seq (List.length before) (List.length rest)) acc w)
  = pages_text extract_text rest acc.
Proof.
  revert before acc w; induction rest as [|page rest IH]; intros before acc w.
  - reflexivity.
  - cbn [List.length seq for_page_num pages_text].
    unfold bind, getitem.
    rewrite nth_error_app2 by lia.
    rewrite Nat.sub_diag; cbn [nth_error ret call_extract_text].
    destruct (extract_text page) as [t|e]; [|reflexivity].
    replace (before ++ page :: rest) with ((before ++ [page]) ++ rest)
      by (rewrite <- app_assoc; reflexivity).
    replace (S (List.length before)) with (List.length (before ++ [page]))
      by (rewrite length_app; simpl; lia).
    apply IH.
Qed.

(** The loop calls the PDF library only. *)
Lemma for_page_num_trace (pages : list Page) (page_nums : list nat)
  (acc : pystr) (w : World) :
  exists tr,
    snd (for_page_num extract_text pages page_nums acc w) = w ++ tr
    /\ generation_calls tr = [].
Proof.
  revert acc w; induction page_nums as [|n page_nums IH]; intros acc w.
  - exists []; simpl; rewrite app_nil_r; split; reflexivity.
  - cbn [for_page_num]; unfold bind, getitem.
    destruct (nth_error pages n) as [page|]; cbn [ret raise call_extract_text].
    + destruct (extract_text page) as [t|e].
      * destruct (IH (acc ++ t ++ nl) (w ++ [CallExtractText n])) as [tr [Htr Hgen]].
        exists (CallExtractText n :: tr); split.
        -- rewrite Htr, <- app_assoc; reflexivity.
        -- exact Hgen.
      * exists [CallExtractText n]; split; reflexivity.
    + exists []; simpl; rewrite app_nil_r; split; reflexivity.
Qed.

(** The extractor's result is a function of the bytes alone. *)
Lemma extract_outcome (pdf_file : bytes) (w : World) :
  fst (extract pdf_file w) = extraction_outcome PdfReader extract_text pdf_file.
Proof.
  unfold extract_text_from_pdf, extraction_outcome, try_except, bind, call_PdfReader.
  destruct (PdfReader pdf_file) as [pages|e]; [|reflexivity].
  unfold range.
  pose proof (for_page_num_outcome pages [] [] (w ++ [CallPdfReader pdf_file])) as H.
  cbn [app List.length] in H.
  destruct (for_page_num extract_text pages (seq 0 (List.length pages)) []
              (w ++ [CallPdfReader pdf_file])) as [r w'].
  cbn [fst] in H; rewrite <- H.
  destruct r; reflexivity.
Qed.

(** The extractor opens the document first and never calls the
    generation service. *)
Lemma extract_trace (pdf_file : bytes) (w : World) :
  exists tr,
    snd (extract pdf_file w) = w ++ CallPdfReader pdf_file :: tr
    /\ generation_calls tr = [].
Proof.
  unfold extract_text_from_pdf, try_except, bind, call_PdfReader.
  destruct (PdfReader pdf_file) as [pages|e].
  - destruct (for_page_num_trace pages (range (List.length pages)) []
                (w ++ [CallPdfReader pdf_file])) as [tr [Htr Hgen]].
    destruct (for_page_num extract_text pages (range (List.length pages)) []
                (w ++ [CallPdfReader pdf_file])) as [r w'].
    cbn [snd] in Htr; subst w'.
    exists tr; split; [|exact Hgen].
    destruct r; cbn; rewrite <- app_assoc; reflexivity.
  - exists []; split; reflexivity.
Qed.

Lemma extract_generation_calls (pdf_file : bytes) (w : World) :
  generation_calls (snd (extract pdf_file w)) = generation_calls w.
Proof.
  destruct (extract_trace pdf_file w) as [tr [-> Hgen]].
  rewrite generation_calls_app; cbn [generation_calls].
  rewrite Hgen; apply app_nil_r.
Qed.

(** When every page can be extracted the pages' texts are joined. *)
Lemma pages_text_ok (pages : list Page) (texts : list pystr) (acc : pystr) :
  Forall2 page_ok pages texts ->
  pages_text extract_text pages acc = Return (acc ++ join_pages texts).
Proof.
  intros H; revert acc; induction H as [|page t pages texts Hp _ IH]; intros acc.
  - simpl; rewrite app_nil_r; reflexivity.
  - cbn [pages_text]; rewrite Hp, IH.
    unfold join_pages; cbn [map List.concat].
    rewrite <- !app_assoc; reflexivity.
Qed.

(** The first page that fails ends the loop with its exception. *)
Lemma pages_text_fail (good : list Page) (texts : list pystr) (bad : Page)
  (rest : list Page) (e : PyExc) (acc : pystr) :
  Forall2 page_ok good texts ->
  extract_text bad = Raise e ->
  pages_text extract_text (good ++ bad :: rest) acc = Raise e.
Proof.
  intros H Hbad; revert acc; induction H as [|page t good texts Hp _ IH]; intros acc.
  - cbn [app pages_text]; rewrite Hbad; reflexivity.
  - cbn [app pages_text]; rewrite Hp; apply IH.
Qed.

(** The extractor on a document whose pages can all be extracted. *)
Lemma extract_ok (pdf_file : bytes) (pages : list Page) (texts : list pystr)
  (w : World) :
  PdfReader pdf_file = Return pages ->
  Forall2 page_ok pages texts ->
  fst (extract pdf_file w) = Return (strip (join_pages texts)).
Proof.
  intros Hparse Hpages.
  rewrite extract_outcome; unfold extraction_outcome.
  rewrite Hparse; erewrite pages_text_ok by exact Hpages; reflexivity.
Qed.


(** What the extractor returns is trimmed. *)
Lemma extraction_outcome_return (pdf_file : bytes) (pdf_text : pystr) :
  extraction_outcome PdfReader extract_text pdf_file = Return pdf_text ->
  exists pages text_content,
    PdfReader pdf_file = Return pages
    /\ pages_text extract_text pages [] = Return text_content
    /\ pdf_text = strip text_content.
Proof.
  unfold extraction_outcome.
  destruct (PdfReader pdf_file) as [pages|cause]; [|discriminate].
  destruct (pages_text extract_text pages []) as [t|cause] eqn:Hp; [|discriminate].
  intros [= <-]; exists pages, t; auto.
Qed.

End ExtractorFacts.

(** ** Facts about building a response *)

Section ResponseFacts.

Lemma utf8_encodable_app (s t : pystr) :
  utf8_encodable (s ++ t) = utf8_encodable s && utf8_encodable t.
Proof. apply forallb_app. Qed.

Lemma small_not_surrogate (c : pychar) : (c < 256)%N -> is_surrogate c = false.
Proof.
  intros H; unfold is_surrogate.
  apply andb_false_intro1, N.leb_gt; lia.
Qed.

Lemma utf8_encodable_lit (s : string) : utf8_encodable (lit s) = true.
Proof.
  unfold lit; induction s as [|a s IH]; [reflexivity|].
  cbn [list_ascii_of_string map utf8_encodable forallb].
  rewrite (small_not_surrogate _ (N_ascii_bounded a)); exact IH.
Qed.

Lemma hex_digit_not_surrogate (n : N) : is_surrogate (hex_digit (n mod 16)) = false.
Proof.
  apply small_not_surrogate.
  pose proof (N.mod_lt n 16 ltac:(discriminate)) as H.
  unfold hex_digit; destruct (n mod 16 <? 10)%N; lia.
Qed.

Lemma utf8_encodable_hex4 (c : pychar) : utf8_encodable (hex4 c) = true.
Proof.
  unfold hex4; cbn [utf8_encodable forallb].
  rewrite !hex_digit_not_surrogate; reflexivity.
Qed.

(** Escaping neither adds nor removes a surrogate. *)
Lemma utf8_encodable_escape_char (c : pychar) :
  utf8_encodable (json_escape_char c) = negb (is_surrogate c).
Proof.
  unfold json_escape_char.
  repeat (destruct (N.eqb c _) eqn:E;
          [apply N.eqb_eq in E; subst c; reflexivity | clear E]).
  destruct (c <? 32)%N eqn:E.
  - apply N.ltb_lt in E.
    rewrite utf8_encodable_app, utf8_encodable_hex4, small_not_surrogate by lia.
    reflexivity.
  - cbn [utf8_encodable forallb]; apply andb_true_r.
Qed.

Lemma utf8_encodable_escaped (s : pystr) :
  utf8_encodable (flat_map json_escape_char s) = utf8_encodable s.
Proof.
  induction s as [|c s IH]; [reflexivity|].
  cbn [flat_map]; rewrite utf8_encodable_app, utf8_encodable_escape_char, IH.
  reflexivity.
Qed.

Lemma utf8_encodable_json_string (s : pystr) :
  utf8_encodable (json_string s) = utf8_encodable s.
Proof.
  unfold json_string; rewrite !utf8_encodable_app, utf8_encodable_escaped.
  change (utf8_encodable [34%N]) with true; cbn [andb]; apply andb_true_r.
Qed.

Lemma utf8_encodable_of_int (z : Z) : utf8_encodable (of_int z) = true.
Proof. apply utf8_encodable_lit. Qed.

(** The encoder stops exactly when there is a surrogate. *)
Lemma first_surrogates_encodable (s : pystr) (pos : nat) :
  first_surrogates s pos = None <-> utf8_encodable s = true.
Proof.
  revert pos; induction s as [|c s IH]; intros pos; [split; reflexivity|].
  cbn [first_surrogates utf8_encodable forallb].
  destruct (is_surrogate c); cbn [negb andb]; [split; discriminate | apply IH].
Qed.

Lemma new_JSONResponse_frame (status : Z) (d : list (string * JsonValue)) (w : World) :
  new_JSONResponse status d w = (response_outcome status d, w).
Proof.
  unfold response_outcome, new_JSONResponse.
  destruct (first_surrogates (json_dumps d) 0) as [[start stop]|]; reflexivity.
Qed.

Lemma response_outcome_ok (status : Z) (d : list (string * JsonValue)) :
  utf8_encodable (json_dumps d) = true ->
  response_outcome status d = Return {| status_code := status; content := d |}.
Proof.
  intros H; apply (first_surrogates_encodable _ 0) in H.
  unfold response_outcome, new_JSONResponse; rewrite H; reflexivity.
Qed.

Lemma response_outcome_return (status : Z) (d : list (string * JsonValue))
  (resp : JSONResponse) :
  response_outcome status d = Return resp ->
  resp = {| status_code := status; content := d |}
  /\ utf8_encodable (json_dumps d) = true.
Proof.
  unfold response_outcome, new_JSONResponse.
  destruct (first_surrogates (json_dumps d) 0) as [[start stop]|] eqn:E;
    [discriminate|].
  intros [= <-]; split; [reflexivity | apply (first_surrogates_encodable _ 0), E].
Qed.


(** The success payload can be encoded exactly when the explanation and
    the filename can. *)
Lemma success_payload_encodable (explanation : pystr) (n : Z) (name : option pystr) :
  utf8_encodable (json_dumps (content (success_response explanation n name)))
  = utf8_encodable explanation && utf8_encodable_opt name.
Proof.
  unfold json_dumps; cbn [success_response content json_items json_value].
  repeat rewrite utf8_encodable_app.
  rewrite !utf8_encodable_json_string, !utf8_encodable_lit, utf8_encodable_of_int.
  destruct name as [t|]; cbn [json_of_opt json_value utf8_encodable_opt].
  - rewrite utf8_encodable_json_string.
    cbn [utf8_encodable forallb is_surrogate]; cbn.
    rewrite !andb_true_r; reflexivity.
  - rewrite utf8_encodable_lit; cbn; rewrite !andb_true_r; reflexivity.
Qed.

End ResponseFacts.

(** ** Facts about the generator and the handler *)

Section HandlerFacts.

Variable Page : Type.
Variable PdfReader : bytes -> Result (list Page).
Variable extract_text : Page -> Result pystr.
Variable generate_content : World -> GenerateContentCall -> Result GenerateContentResponse.

Local Abbreviation extract := (extract_text_from_pdf PdfReader extract_text).
Local Abbreviation generate := (generate_meme_explanation generate_content).
Local Abbreviation handler := (upload_pdf PdfReader extract_text generate_content).
Local Abbreviation handler_try :=
  (upload_pdf_try PdfReader extract_text generate_content).

(** The generator makes exactly one call, with the request built from the
    text, and maps the answer as [generation_outcome] says. *)
Lemma generate_run (pdf_text : pystr) (w : World) :
  generate pdf_text w
  = (generation_outcome (generate_content w (generation_request pdf_text)),
     w ++ [CallGenerateContent (generation_request pdf_text)]).
Proof.
  unfold generate_meme_explanation, try_except, bind, call_generate_content.
  destruct (generate_content w (generation_request pdf_text)) as [[[[|c t]|]]|e];
    reflexivity.
Qed.

Lemma is_pdf_type_true (ct : option pystr) :
  is_pdf_type ct = true <-> ct = Some PDF_MEDIA_TYPE.
Proof.
  destruct ct as [s|]; simpl.
  - rewrite eqb_eq; split; congruence.
  - split; discriminate.
Qed.

(** A string that is long after trimming is not empty. *)
Lemma long_text_truthy (pdf_text : pystr) :
  50 <= len (strip pdf_text) -> truthy pdf_text = true.
Proof.
  destruct pdf_text; [cbv; intros H; contradiction H; reflexivity | reflexivity].
Qed.

(** An upload that passes both checks runs the [try] block. *)
Lemma handler_valid (file : UploadFile) (w : World) :
  content_type file = Some PDF_MEDIA_TYPE ->
  len_bytes (read file) <= MAX_UPLOAD_BYTES ->
  handler file w = try_except (handler_try file (read file)) upload_pdf_except w.
Proof.
  intros Hct Hlen; unfold upload_pdf.
  apply is_pdf_type_true in Hct; rewrite Hct; cbn [negb].
  destruct (len_bytes (read file) >? MAX_UPLOAD_BYTES) eqn:E; [|reflexivity].
  apply Z.gtb_lt in E; lia.
Qed.

(** The [try] block when extraction raises. *)
Lemma handler_try_extract_raise (file : UploadFile) (b : bytes) (w : World) (e : PyExc) :
  fst (extract b w) = Raise e ->
  handler_try file b w = (Raise e, snd (extract b w)).
Proof.
  unfold upload_pdf_try, bind.
  destruct (extract b w) as [r w1]; cbn [fst snd]; intros ->; reflexivity.
Qed.

(** The [try] block when there is too little text. *)
Lemma handler_try_little_text (file : UploadFile) (b : bytes) (w : World)
  (pdf_text : pystr) :
  fst (extract b w) = Return pdf_text ->
  negb (truthy pdf_text) || (len (strip pdf_text) <? 50) = true ->
  handler_try file b w = (Return little_text_response, snd (extract b w)).
Proof.
  unfold upload_pdf_try, bind.
  destruct (extract b w) as [r w1]; cbn [fst snd]; intros -> ->; reflexivity.
Qed.

(** The [try] block when the generator is reached. *)
Lemma handler_try_generate (file : UploadFile) (b : bytes) (w : World)
  (pdf_text : pystr) :
  fst (extract b w) = Return pdf_text ->
  negb (truthy pdf_text) || (len (strip pdf_text) <? 50) = false ->
  handler_try file b w
  = (match generation_outcome
             (generate_content (snd (extract b w)) (generation_request pdf_text)) with
     | Return explanation =>
         response_outcome 200
           (content (success_response explanation (len pdf_text) (filename file)))
     | Raise e => Raise e
     end,
     snd (extract b w) ++ [CallGenerateContent (generation_request pdf_text)]).
Proof.
  unfold upload_pdf_try, bind.
  destruct (extract b w) as [r w1]; cbn [fst snd]; intros -> ->.
  rewrite generate_run.
  destruct (generation_outcome _); [apply new_JSONResponse_frame | reflexivity].
Qed.

End HandlerFacts.

(** ** The claims *)

Section Claims.

Variable Page : Type.
Variable PdfReader : bytes -> Result (list Page).
Variable extract_text : Page -> Result pystr.
Variable generate_content : World -> GenerateContentCall -> Result GenerateContentResponse.

(** C7: when the bytes parse and every page can be extracted, the
    extractor returns the pages' texts, in page order, each followed by a
    newline, concatenated and then trimmed; the result has no leading and
    no trailing whitespace. *)
Theorem extractor_joins_pages (pdf_file : bytes) (pages : list Page)
  (texts : list pystr) (w : World) :
  PdfReader pdf_file = Return pages ->
  Forall2 (fun page t => extract_text page = Return t) pages texts ->
  fst (extract_text_from_pdf PdfReader extract_text pdf_file w)
  = Return (strip (List.concat (map (fun t => t ++ nl) texts)))
  /\ clean_head (strip (List.concat (map (fun t => t ++ nl) texts)))
  /\ clean_last (strip (List.concat (map (fun t => t ++ nl) texts))).
Proof.
  intros Hparse Hpages; split; [|apply strip_clean].
  exact (extract_ok _ _ _ _ _ _ w Hparse Hpages).
Qed.

(** C8: when opening the document raises, or some page cannot be
    extracted (with every page before it extracted), the extractor raises
    one [HTTPException] with status 400 whose detail embeds [str] of that
    first failure; it returns no text; and for an upload that passed the
    type and size checks the handler raises the same exception, answers 400
    and does not call the generation service. *)
Theorem extraction_fails_atomically (file : UploadFile) (w : World) (cause : PyExc) :
  (PdfReader (read file) = Raise cause
   \/ exists good texts bad rest,
        PdfReader (read file) = Return (good ++ bad :: rest)
        /\ Forall2 (fun page t => extract_text page = Return t) good texts
        /\ extract_text bad = Raise cause) ->
  let failure := HTTPException 400 (EXTRACT_ERROR_PREFIX ++ exc_str cause) in
  fst (extract_text_from_pdf PdfReader extract_text (read file) w) = Raise failure
  /\ (forall partial,
        fst (extract_text_from_pdf PdfReader extract_text (read file) w)
        <> Return partial)
  /\ (content_type file = Some PDF_MEDIA_TYPE ->
      len_bytes (read file) <= MAX_UPLOAD_BYTES ->
      fst (upload_pdf PdfReader extract_text generate_content file w) = Raise failure
      /\ http_status (fst (upload_pdf PdfReader extract_text generate_content file w)) = 400
      /\ generation_calls (snd (upload_pdf PdfReader extract_text generate_content file w))
         = generation_calls w).
Proof.
  intros Hfail failure.
  assert (Hx : fst (extract_text_from_pdf PdfReader extract_text (read file) w)
               = Raise failure).
  { rewrite extract_outcome; unfold extraction_outcome.
    destruct Hfail as [Hr | (good & texts & bad & rest & Hr & Hgood & Hbad)].
    - rewrite Hr; reflexivity.
    - rewrite Hr; erewrite pages_text_fail by eassumption; reflexivity. }
  split; [exact Hx|]; split.
  - intros partial Hp; rewrite Hx in Hp; discriminate.
  - intros Hct Hlen.
    rewrite handler_valid by assumption; unfold try_except.
    erewrite handler_try_extract_raise by exact Hx.
    cbn; repeat split; apply extract_generation_calls.
Qed.

(** C5: an upload whose declared content type is not exactly
    ["application/pdf"] (or is missing) is answered with a 400, and no call
    is made to the PDF library or to the generation service: the state is
    unchanged. *)
Theorem wrong_type_rejected (file : UploadFile) (w : World) :
  content_type file <> Some PDF_MEDIA_TYPE ->
  upload_pdf PdfReader extract_text generate_content file w
  = (Raise (HTTPException 400 INVALID_TYPE_DETAIL), w)
  /\ http_status (fst (upload_pdf PdfReader extract_text generate_content file w)) = 400.
Proof.
  intros Hct.
  assert (E : is_pdf_type (content_type file) = false).
  { destruct (is_pdf_type (content_type file)) eqn:E; [|reflexivity].
    apply is_pdf_type_true in E; contradiction. }
  unfold upload_pdf; rewrite E; split; reflexivity.
Qed.

(** C6: an upload of PDF type with more than [10 * 1024 * 1024] bytes is
    answered with a 400 and no call is made to the PDF library or to the
    generation service; an upload of exactly that many bytes passes the
    check: the handler goes on to run its [try] block, which opens the
    document. *)
Theorem oversized_rejected (file : UploadFile) (w : World) :
  content_type file = Some PDF_MEDIA_TYPE ->
  (len_bytes (read file) > 10 * 1024 * 1024 ->
   upload_pdf PdfReader extract_text generate_content file w
   = (Raise (HTTPException 400 TOO_LARGE_DETAIL), w)
   /\ http_status (fst (upload_pdf PdfReader extract_text generate_content file w)) = 400)
  /\ (len_bytes (read file) = 10 * 1024 * 1024 ->
      upload_pdf PdfReader extract_text generate_content file w
      = try_except
          (upload_pdf_try PdfReader extract_text generate_content file (read file))
          upload_pdf_except w
      /\ exists tr,
           snd (upload_pdf PdfReader extract_text generate_content file w)
           = w ++ CallPdfReader (read file) :: tr).
Proof.
  intros Hct; split.
  - intros Hlen; unfold upload_pdf.
    apply is_pdf_type_true in Hct; rewrite Hct; cbn [negb].
    destruct (len_bytes (read file) >? MAX_UPLOAD_BYTES) eqn:E.
    + split; reflexivity.
    + unfold MAX_UPLOAD_BYTES in E; rewrite Z.gtb_ltb, Z.ltb_ge in E; lia.
  - intros Hlen.
    assert (Hle : len_bytes (read file) <= MAX_UPLOAD_BYTES)
      by (unfold MAX_UPLOAD_BYTES; lia).
    rewrite handler_valid by assumption; split; [reflexivity|].
    unfold try_except, upload_pdf_try, bind.
    destruct (extract_trace _ PdfReader extract_text (read file) w) as [tr [Htr _]].
    destruct (extract_text_from_pdf PdfReader extract_text (read file) w) as [r w1].
    cbn [snd] in Htr; subst w1.
    destruct r as [pdf_text|e].
    + destruct (negb (truthy pdf_text) || (len (strip pdf_text) <? 50)).
      * exists tr; reflexivity.
      * rewrite generate_run.
        exists (tr ++ [CallGenerateContent (generation_request pdf_text)]).
        destruct (generation_outcome _) as [x|[msg|status detail]];
          [rewrite new_JSONResponse_frame;
           destruct (response_outcome _ _) as [resp|[msg|status detail]] | | ];
          cbn [fst snd try_except upload_pdf_except raise];
          rewrite <- app_assoc; reflexivity.
    + exists tr; destruct e; reflexivity.
Qed.

(** C1, amended: for an upload that passes the type and size checks,
    whose pages can all be extracted, whose trimmed text has at least 50
    characters and for which the generation service answers with a
    non-empty text, when neither that text nor the filename holds a
    surrogate code point (so that the payload can be encoded as UTF-8), the
    handler answers 200 with [success: true], the service's text as
    [explanation], the length of the trimmed text as [original_length], and
    the upload's filename. *)
Theorem upload_success (file : UploadFile) (w : World) (pages : list Page)
  (texts : list pystr) (explanation : pystr) :
  content_type file = Some PDF_MEDIA_TYPE ->
  len_bytes (read file) <= MAX_UPLOAD_BYTES ->
  PdfReader (read file) = Return pages ->
  Forall2 (fun page t => extract_text page = Return t) pages texts ->
  50 <= len (strip (join_pages texts)) ->
  generate_content
    (snd (extract_text_from_pdf PdfReader extract_text (read file) w))
    (generation_request (strip (join_pages texts)))
  = Return {| text := Some explanation |} ->
  explanation <> [] ->
  utf8_encodable explanation = true ->
  utf8_encodable_opt (filename file) = true ->
  fst (upload_pdf PdfReader extract_text generate_content file w)
  = Return {| status_code := 200;
              content := [("success"%string, JBool true);
                          ("explanation"%string, JStr explanation);
                          ("original_length"%string,
                           JInt (len (strip (join_pages texts))));
                          ("filename"%string, json_of_opt (filename file))] |}
  /\ http_status (fst (upload_pdf PdfReader extract_text generate_content file w)) = 200.
Proof.
  intros Hct Hlen Hparse Hpages Hlong Hgen Hne Hexp Hname.
  pose proof (extract_ok _ _ _ _ _ _ w Hparse Hpages) as Hx.
  assert (Hcheck : negb (truthy (strip (join_pages texts)))
                   || (len (strip (strip (join_pages texts))) <? 50) = false).
  { rewrite strip_idempotent, long_text_truthy
      by (rewrite strip_idempotent; exact Hlong).
    apply Z.ltb_ge; exact Hlong. }
  rewrite handler_valid by assumption; unfold try_except.
  erewrite handler_try_generate by eassumption.
  rewrite Hgen.
  destruct explanation as [|c t]; [contradiction Hne; reflexivity|].
  cbn [generation_outcome].
  rewrite response_outcome_ok
    by (rewrite success_payload_encodable, Hexp, Hname; reflexivity).
  split; reflexivity.
Qed.

(** C2: for an upload that passes the type and size checks and whose
    pages can all be extracted, when the extracted text is empty or has
    fewer than 50 characters after trimming, the handler answers 200 with
    [success: false] and a message, and the generation service is not
    called. *)
Theorem little_text_no_generation (file : UploadFile) (w : World)
  (pages : list Page) (texts : list pystr) :
  content_type file = Some PDF_MEDIA_TYPE ->
  len_bytes (read file) <= MAX_UPLOAD_BYTES ->
  PdfReader (read file) = Return pages ->
  Forall2 (fun page t => extract_text page = Return t) pages texts ->
  strip (join_pages texts) = [] \/ len (strip (strip (join_pages texts))) < 50 ->
  fst (upload_pdf PdfReader extract_text generate_content file w)
  = Return {| status_code := 200;
              content := [("success"%string, JBool false);
                          ("message"%string, JStr LITTLE_TEXT_MESSAGE)] |}
  /\ http_status (fst (upload_pdf PdfReader extract_text generate_content file w)) = 200
  /\ LITTLE_TEXT_MESSAGE <> []
  /\ generation_calls (snd (upload_pdf PdfReader extract_text generate_content file w))
     = generation_calls w.
Proof.
  intros Hct Hlen Hparse Hpages Hshort.
  pose proof (extract_ok _ _ _ _ _ _ w Hparse Hpages) as Hx.
  assert (Hcheck : negb (truthy (strip (join_pages texts)))
                   || (len (strip (strip (join_pages texts))) <? 50) = true).
  { destruct Hshort as [-> | Hlt]; [reflexivity|].
    apply Z.ltb_lt in Hlt; rewrite Hlt; apply orb_true_r. }
  rewrite handler_valid by assumption; unfold try_except.
  erewrite handler_try_little_text by eassumption.
  cbn [fst snd]; repeat split.
  - discriminate.
  - apply extract_generation_calls.
Qed.

(** C3: the generator sends one request whose prompt is the fixed prefix
    followed by the first 12000 characters of the text, and nothing more;
    what it returns and the state it leaves are those of a call with the
    truncated text, so nothing tells the caller that text was dropped. *)
Theorem prompt_truncated (pdf_text : pystr) (w : World) :
  snd (generate_meme_explanation generate_content pdf_text w)
  = w ++ [CallGenerateContent (generation_request pdf_text)]
  /\ contents (generation_request pdf_text)
     = USER_PROMPT_PREFIX ++ firstn (Z.to_nat 12000) pdf_text
  /\ len (firstn (Z.to_nat 12000) pdf_text) <= 12000
  /\ generate_meme_explanation generate_content pdf_text w
     = generate_meme_explanation generate_content
         (firstn (Z.to_nat 12000) pdf_text) w.
Proof.
  assert (Hreq : generation_request (firstn (Z.to_nat 12000) pdf_text)
                 = generation_request pdf_text).
  { unfold generation_request, slice_to, PROMPT_TEXT_LIMIT; cbn [Z.leb Z.compare].
    rewrite firstn_firstn, Nat.min_id; reflexivity. }
  rewrite !generate_run, Hreq; repeat split.
  unfold len; rewrite length_firstn; lia.
Qed.

(** C4: for an upload that passes the type and size checks and whose
    trimmed text has at least 50 characters, when the generation call
    raises, or answers with no text or with an empty text, the handler
    raises an [HTTPException] with status 500 whose detail embeds the cause
    ([str] of the exception, or the words for an empty response); it returns
    no response at all, so no empty success. *)
Theorem generation_failure_is_500 (file : UploadFile) (w : World)
  (pages : list Page) (texts : list pystr) (cause : pystr) :
  content_type file = Some PDF_MEDIA_TYPE ->
  len_bytes (read file) <= MAX_UPLOAD_BYTES ->
  PdfReader (read file) = Return pages ->
  Forall2 (fun page t => extract_text page = Return t) pages texts ->
  50 <= len (strip (join_pages texts)) ->
  (let answer :=
     generate_content
       (snd (extract_text_from_pdf PdfReader extract_text (read file) w))
       (generation_request (strip (join_pages texts))) in
   (exists e, answer = Raise e /\ cause = exc_str e)
   \/ (answer = Return {| text := None |} /\ cause = EMPTY_RESPONSE)
   \/ (answer = Return {| text := Some [] |} /\ cause = EMPTY_RESPONSE)) ->
  fst (upload_pdf PdfReader extract_text generate_content file w)
  = Raise (HTTPException 500 (GENERATE_ERROR_PREFIX ++ cause))
  /\ http_status (fst (upload_pdf PdfReader extract_text generate_content file w)) = 500
  /\ (forall resp,
        fst (upload_pdf PdfReader extract_text generate_content file w) <> Return resp)
  /\ generation_calls (snd (upload_pdf PdfReader extract_text generate_content file w))
     = generation_calls w ++ [generation_request (strip (join_pages texts))].
Proof.
  intros Hct Hlen Hparse Hpages Hlong Hfail.
  pose proof (extract_ok _ _ _ _ _ _ w Hparse Hpages) as Hx.
  assert (Hcheck : negb (truthy (strip (join_pages texts)))
                   || (len (strip (strip (join_pages texts))) <? 50) = false).
  { rewrite strip_idempotent, long_text_truthy
      by (rewrite strip_idempotent; exact Hlong).
    apply Z.ltb_ge; exact Hlong. }
  assert (Hout : generation_outcome
                   (generate_content
                      (snd (extract_text_from_pdf PdfReader extract_text (read file) w))
                      (generation_request (strip (join_pages texts))))
                 = Raise (HTTPException 500 (GENERATE_ERROR_PREFIX ++ cause))).
  { cbv zeta in Hfail.
    destruct Hfail as [(e & -> & ->) | [(-> & ->) | (-> & ->)]]; reflexivity. }
  rewrite handler_valid by assumption; unfold try_except.
  erewrite handler_try_generate by eassumption.
  rewrite Hout; cbn [fst snd upload_pdf_except raise http_status].
  repeat split.
  - discriminate.
  - rewrite generation_calls_app, extract_generation_calls; reflexivity.
Qed.

(** C10: whenever the handler answers with [success: true], the text the
    extractor returned is its own trimmed form, so the length the
    sufficiency check measured is the length reported as [original_length],
    which is at least 50; and that text is what the generator was given. *)
Theorem success_invariant (file : UploadFile) (w : World) (resp : JSONResponse) :
  fst (upload_pdf PdfReader extract_text generate_content file w) = Return resp ->
  dict_get (content resp) "success" = Some (JBool true) ->
  exists pdf_text,
    fst (extract_text_from_pdf PdfReader extract_text (read file) w) = Return pdf_text
    /\ strip pdf_text = pdf_text
    /\ len (strip pdf_text) = len pdf_text
    /\ dict_get (content resp) "original_length" = Some (JInt (len pdf_text))
    /\ 50 <= len pdf_text
    /\ generation_calls (snd (upload_pdf PdfReader extract_text generate_content file w))
       = generation_calls w ++ [generation_request pdf_text].
Proof.
  unfold upload_pdf.
  destruct (is_pdf_type (content_type file)); cbn [negb]; [|discriminate].
  destruct (len_bytes (read file) >? MAX_UPLOAD_BYTES); [discriminate|].
  unfold try_except.
  destruct (fst (extract_text_from_pdf PdfReader extract_text (read file) w))
    as [pdf_text|e] eqn:Hx.
  - destruct (negb (truthy pdf_text) || (len (strip pdf_text) <? 50)) eqn:Hcheck.
    + erewrite handler_try_little_text by eassumption.
      cbn [fst]; intros [= <-]; discriminate.
    + erewrite handler_try_generate by eassumption.
      destruct (generation_outcome _) as [explanation|[msg|status detail]];
        cbn [fst snd upload_pdf_except raise]; try discriminate.
      destruct (response_outcome _ _) as [resp'|[msg|status detail]] eqn:Hresp;
        cbn [fst snd upload_pdf_except raise]; try discriminate.
      apply response_outcome_return in Hresp as [-> _].
      intros [= <-] _.
      apply orb_false_elim in Hcheck as [_ Hlen]; apply Z.ltb_ge in Hlen.
      assert (Hfix : strip pdf_text = pdf_text).
      { rewrite extract_outcome in Hx.
        apply extraction_outcome_return in Hx as (pages & text_content & _ & _ & ->).
        apply strip_idempotent. }
      exists pdf_text; rewrite Hfix in *; repeat split; try assumption.
      rewrite generation_calls_app, extract_generation_calls; reflexivity.
  - erewrite handler_try_extract_raise by eassumption.
    destruct e; discriminate.
Qed.

End Claims.

(** ** The claims on the test doubles *)

Section Witnesses.

Import Doubles.

Local Abbreviation handle :=
  (upload_pdf Doubles.PdfReader Doubles.extract_text Doubles.generate_content).
Local Abbreviation extractor :=
  (extract_text_from_pdf Doubles.PdfReader Doubles.extract_text).

(** The length of an upload of zero bytes, without building it. *)
Lemma zeros_length (n : Z) : 0 <= n -> len_bytes (read (zeros n)) = n.
Proof.
  intros Hn; unfold len_bytes, zeros; cbn [read].
  rewrite repeat_length; apply Z2Nat.id, Hn.
Qed.

(** The two-page document: 81 characters after trimming, answered. *)
Lemma upload_success_witness :
  fst (handle (upload "application/pdf" long_pdf) [])
  = Return {| status_code := 200;
              content := [("success"%string, JBool true);
                          ("explanation"%string,
                           JStr (lit "LOL, so basically: y days only."));
                          ("original_length"%string, JInt 81);
                          ("filename"%string, JStr (lit "doc.pdf"))] |}
  /\ http_status (fst (handle (upload "application/pdf" long_pdf) [])) = 200.
Proof.
  apply (upload_success _ Doubles.PdfReader Doubles.extract_text
           Doubles.generate_content (upload "application/pdf" long_pdf) []
           (map (@Return pystr) long_pdf_texts) long_pdf_texts
           (lit "LOL, so basically: y days only.")).
  - reflexivity.
  - vm_compute; discriminate.
  - vm_compute; reflexivity.
  - repeat constructor.
  - vm_compute; discriminate.
  - vm_compute; reflexivity.
  - discriminate.
  - vm_compute; reflexivity.
  - reflexivity.
Defined.

(** The same document under a filename with a lone surrogate: every
    condition of the unamended claim holds, and the answer is the 500 of
    the handler's last [except] clause. *)
Lemma upload_success_counterexample :
  content_type surrogate_name_upload = Some PDF_MEDIA_TYPE
  /\ len_bytes (read surrogate_name_upload) <= MAX_UPLOAD_BYTES
  /\ Doubles.PdfReader (read surrogate_name_upload)
     = Return (map (@Return pystr) long_pdf_texts)
  /\ fst (extractor (read surrogate_name_upload) [])
     = Return (strip (join_pages long_pdf_texts))
  /\ 50 <= len (strip (join_pages long_pdf_texts))
  /\ Doubles.generate_content
       (snd (extractor (read surrogate_name_upload) []))
       (generation_request (strip (join_pages long_pdf_texts)))
     = Return {| text := Some (lit "LOL, so basically: y days only.") |}
  /\ fst (handle surrogate_name_upload [])
     = Raise (HTTPException 500
                (UNEXPECTED_PREFIX
                 ++ lit "'utf-8' codec can't encode character '\udc80' in position 101: surrogates not allowed"))
  /\ http_status (fst (handle surrogate_name_upload [])) = 500.
Proof.
  repeat split; vm_compute; try reflexivity; discriminate.
Qed.

(** The four-character document: no request reaches the service. *)
Lemma little_text_no_generation_witness :
  fst (handle (upload "application/pdf" short_pdf) [])
  = Return {| status_code := 200;
              content := [("success"%string, JBool false);
                          ("message"%string, JStr LITTLE_TEXT_MESSAGE)] |}
  /\ http_status (fst (handle (upload "application/pdf" short_pdf) [])) = 200
  /\ LITTLE_TEXT_MESSAGE <> []
  /\ generation_calls (snd (handle (upload "application/pdf" short_pdf) [])) = [].
Proof.
  apply (little_text_no_generation _ Doubles.PdfReader Doubles.extract_text
           Doubles.generate_content (upload "application/pdf" short_pdf) []
           (map (@Return pystr) short_pdf_texts) short_pdf_texts).
  - reflexivity.
  - vm_compute; discriminate.
  - vm_compute; reflexivity.
  - repeat constructor.
  - right; vm_compute; reflexivity.
Defined.

(** The service answers with an empty text, and the service fails. *)
Lemma generation_failure_is_500_witness :
  (fst (handle (upload "application/pdf" long_pdf_empty_answer) [])
   = Raise (HTTPException 500
              (lit "Error generating explanation: Empty response from Gemini AI"))
   /\ http_status (fst (handle (upload "application/pdf" long_pdf_empty_answer) []))
      = 500)
  /\ (fst (handle (upload "application/pdf" long_pdf_failing_service) [])
      = Raise (HTTPException 500
                 (lit "Error generating explanation: 429 quota exceeded"))
      /\ http_status (fst (handle (upload "application/pdf" long_pdf_failing_service) []))
         = 500).
Proof.
  split.
  - refine (let H := generation_failure_is_500 _ Doubles.PdfReader
                       Doubles.extract_text Doubles.generate_content
                       (upload "application/pdf" long_pdf_empty_answer) []
                       (map (@Return pystr) long_pdf_empty_answer_texts)
                       long_pdf_empty_answer_texts EMPTY_RESPONSE _ _ _ _ _ _ in
            conj (proj1 H) (proj1 (proj2 H))).
    + reflexivity.
    + vm_compute; discriminate.
    + vm_compute; reflexivity.
    + repeat constructor.
    + vm_compute; discriminate.
    + right; right; split; vm_compute; reflexivity.
  - refine (let H := generation_failure_is_500 _ Doubles.PdfReader
                       Doubles.extract_text Doubles.generate_content
                       (upload "application/pdf" long_pdf_failing_service) []
                       (map (@Return pystr) long_pdf_failing_service_texts)
                       long_pdf_failing_service_texts (lit "429 quota exceeded")
                       _ _ _ _ _ _ in
            conj (proj1 H) (proj1 (proj2 H))).
    + reflexivity.
    + vm_compute; discriminate.
    + vm_compute; reflexivity.
    + repeat constructor.
    + vm_compute; discriminate.
    + left; exists (Exception (lit "429 quota exceeded")); split;
        vm_compute; reflexivity.
Defined.

(** A good document declared as [text/plain]. *)
Lemma wrong_type_rejected_witness :
  handle (upload "text/plain" long_pdf) []
  = (Raise (HTTPException 400 INVALID_TYPE_DETAIL), [])
  /\ http_status (fst (handle (upload "text/plain" long_pdf) [])) = 400.
Proof.
  apply (wrong_type_rejected _ Doubles.PdfReader Doubles.extract_text
           Doubles.generate_content (upload "text/plain" long_pdf) []).
  vm_compute; discriminate.
Defined.

(** One byte over the limit, and exactly at the limit. *)
Lemma oversized_rejected_witness :
  (handle (zeros (10 * 1024 * 1024 + 1)) []
   = (Raise (HTTPException 400 TOO_LARGE_DETAIL), [])
   /\ http_status (fst (handle (zeros (10 * 1024 * 1024 + 1)) []))
      = 400)
  /\ exists tr,
       snd (handle (zeros (10 * 1024 * 1024)) [])
       = [] ++ CallPdfReader (read (zeros (10 * 1024 * 1024))) :: tr.
Proof.
  split.
  - apply (proj1 (oversized_rejected _ Doubles.PdfReader Doubles.extract_text
                    Doubles.generate_content (zeros (10 * 1024 * 1024 + 1))
                    [] eq_refl)).
    rewrite zeros_length; vm_compute; [reflexivity | discriminate].
  - apply (proj2 (oversized_rejected _ Doubles.PdfReader Doubles.extract_text
                    Doubles.generate_content (zeros (10 * 1024 * 1024))
                    [] eq_refl)).
    rewrite zeros_length; vm_compute; [reflexivity | discriminate].
Defined.

(** The two pages joined by a newline, outer whitespace removed. *)
Lemma extractor_joins_pages_witness :
  fst (extractor (bytes_of_string long_pdf) [])
  = Return (lit "The warranty covers parts for two years. "
            ++ nl ++ lit "Labour is covered for ninety days only.")
  /\ clean_head (strip (List.concat (map (fun t => t ++ nl) long_pdf_texts)))
  /\ clean_last (strip (List.concat (map (fun t => t ++ nl) long_pdf_texts))).
Proof.
  apply (extractor_joins_pages _ Doubles.PdfReader Doubles.extract_text
           (bytes_of_string long_pdf) (map (@Return pystr) long_pdf_texts)
           long_pdf_texts []).
  - vm_compute; reflexivity.
  - repeat constructor.
Defined.

(** A document whose second page is broken, and bytes that are no PDF. *)
Lemma extraction_fails_atomically_witness :
  (fst (extractor (bytes_of_string broken_pdf) [])
   = Raise (HTTPException 400
              (lit "Error extracting text from PDF: broken content stream"))
   /\ fst (handle (upload "application/pdf" broken_pdf) [])
      = Raise (HTTPException 400
                 (lit "Error extracting text from PDF: broken content stream"))
   /\ http_status (fst (handle (upload "application/pdf" broken_pdf) [])) = 400
   /\ generation_calls (snd (handle (upload "application/pdf" broken_pdf) [])) = [])
  /\ fst (handle (upload "application/pdf" not_a_pdf) [])
     = Raise (HTTPException 400
                (lit "Error extracting text from PDF: EOF marker not found")).
Proof.
  split.
  - pose proof (extraction_fails_atomically _ Doubles.PdfReader
                  Doubles.extract_text Doubles.generate_content
                  (upload "application/pdf" broken_pdf) []
                  (Exception (lit "broken content stream"))) as H.
    cbv zeta in H.
    match type of H with ?hyp -> _ => assert (Hfail : hyp) end.
    { right.
      exists [Return (lit "page one")], [lit "page one"],
        (Raise (Exception (lit "broken content stream"))),
        [Return (lit "page three")].
      split; [vm_compute; reflexivity|]; split; [repeat constructor | reflexivity]. }
    destruct (H Hfail) as (Hx & _ & Hup).
    split; [exact Hx|].
    apply Hup; [reflexivity | vm_compute; discriminate].
  - pose proof (extraction_fails_atomically _ Doubles.PdfReader
                  Doubles.extract_text Doubles.generate_content
                  (upload "application/pdf" not_a_pdf) []
                  (Exception (lit "EOF marker not found"))) as H.
    cbv zeta in H.
    match type of H with ?hyp -> _ => assert (Hfail : hyp) end.
    { left; vm_compute; reflexivity. }
    destruct (H Hfail) as (_ & _ & Hup).
    apply Hup; [reflexivity | vm_compute; discriminate].
Defined.

(** The successful response for the two-page document. *)
Lemma success_invariant_witness :
  exists pdf_text,
    fst (extractor (read (upload "application/pdf" long_pdf)) []) = Return pdf_text
    /\ strip pdf_text = pdf_text
    /\ len (strip pdf_text) = len pdf_text
    /\ dict_get
         (content (success_response (lit "LOL, so basically: y days only.") 81
                     (Some (lit "doc.pdf"))))
         "original_length"
       = Some (JInt (len pdf_text))
    /\ 50 <= len pdf_text
    /\ generation_calls (snd (handle (upload "application/pdf" long_pdf) []))
       = [] ++ [generation_request pdf_text].
Proof.
  apply (success_invariant _ Doubles.PdfReader Doubles.extract_text
           Doubles.generate_content (upload "application/pdf" long_pdf) []
           (success_response (lit "LOL, so basically: y days only.") 81
              (Some (lit "doc.pdf")))).
  - vm_compute; reflexivity.
  - reflexivity.
Defined.

End Witnesses.

(** ** More about trimming *)

Section TrimFacts.

Lemma lstrip_blank (s : pystr) : blank s -> lstrip s = [].
Proof.
  induction 1 as [|c s Hc _ IH]; simpl; [reflexivity|].
  rewrite Hc; exact IH.
Qed.

Lemma lstrip_nil_blank (s : pystr) : lstrip s = [] -> blank s.
Proof.
  induction s as [|c s IH]; simpl; [constructor|].
  destruct (isspace c) eqn:E; [|discriminate].
  intros H; constructor; [exact E | exact (IH H)].
Qed.

Lemma lstrip_app_blank (s t : pystr) : blank s -> lstrip (s ++ t) = lstrip t.
Proof.
  induction 1 as [|c s Hc _ IH]; simpl; [reflexivity|].
  rewrite Hc; exact IH.
Qed.

Lemma lstrip_app_keep (s t : pystr) :
  lstrip s <> [] -> lstrip (s ++ t) = lstrip s ++ t.
Proof.
  induction s as [|c s IH]; simpl; [congruence|].
  destruct (isspace c); [exact IH | reflexivity].
Qed.

Lemma rstrip_snoc_space (s : pystr) (c : pychar) :
  isspace c = true -> rstrip (s ++ [c]) = rstrip s.
Proof.
  intros Hc; unfold rstrip; rewrite rev_app_distr; simpl; rewrite Hc; reflexivity.
Qed.

(** Whitespace at the very end does not survive trimming. *)
Lemma strip_snoc_space (s : pystr) (c : pychar) :
  isspace c = true -> strip (s ++ [c]) = strip s.
Proof.
  intros Hc; unfold strip.
  destruct (lstrip s) as [|x l] eqn:E.
  - rewrite (lstrip_app_blank s [c] (lstrip_nil_blank s E)); simpl.
    rewrite Hc; reflexivity.
  - rewrite lstrip_app_keep by congruence.
    rewrite E; apply rstrip_snoc_space, Hc.
Qed.

Lemma strip_blank (s : pystr) : blank s -> strip s = [].
Proof.
  intros H; unfold strip; rewrite (lstrip_blank s H); reflexivity.
Qed.

Lemma join_pages_sep (t : pystr) (texts : list pystr) :
  join_pages (t :: texts) = sep_join (t :: texts) ++ nl.
Proof.
  revert t; induction texts as [|u texts IH]; intros t.
  - unfold join_pages; simpl; rewrite app_nil_r; reflexivity.
  - change (join_pages (t :: u :: texts)) with ((t ++ nl) ++ join_pages (u :: texts)).
    rewrite IH; cbn [sep_join]; rewrite <- !app_assoc; reflexivity.
Qed.

(** The newline after the last page is trimmed away: trimming the pages
    terminated by newlines is trimming them separated by newlines. *)
Lemma strip_join_pages (texts : list pystr) :
  strip (join_pages texts) = strip (sep_join texts).
Proof.
  destruct texts as [|t texts]; [reflexivity|].
  rewrite join_pages_sep; apply strip_snoc_space; reflexivity.
Qed.

Lemma blank_join_pages (texts : list pystr) :
  Forall blank texts -> blank (join_pages texts).
Proof.
  induction 1 as [|t texts Ht _ IH]; [constructor|].
  change (join_pages (t :: texts)) with ((t ++ nl) ++ join_pages texts).
  unfold blank in *; rewrite !Forall_app; repeat split; try assumption.
  repeat constructor.
Qed.

End TrimFacts.

(** ** More about the extractor *)

Section ExtractorCases.

Variable Page : Type.
Variable PdfReader : bytes -> Result (list Page).
Variable extract_text : Page -> Result pystr.

Local Abbreviation page_ok := (fun page t => extract_text page = Return t).

Lemma pages_text_return (pages : list Page) (acc text_content : pystr) :
  pages_text extract_text pages acc = Return text_content ->
  exists texts,
    Forall2 page_ok pages texts /\ text_content = acc ++ join_pages texts.
Proof.
  revert acc; induction pages as [|page pages IH]; intros acc; cbn [pages_text].
  - intros [= <-]; exists []; split; [constructor | symmetry; apply app_nil_r].
  - destruct (extract_text page) as [t|e] eqn:Hp; [|discriminate].
    intros H; destruct (IH _ H) as (texts & Hall & ->).
    exists (t :: texts); split; [constructor; assumption|].
    unfold join_pages; cbn [map List.concat]; rewrite <- !app_assoc; reflexivity.
Qed.

Lemma pages_text_raise (pages : list Page) (acc : pystr) (cause : PyExc) :
  pages_text extract_text pages acc = Raise cause ->
  exists good texts bad rest,
    pages = good ++ bad :: rest
    /\ Forall2 page_ok good texts
    /\ extract_text bad = Raise cause.
Proof.
  revert acc; induction pages as [|page pages IH]; intros acc; cbn [pages_text].
  - discriminate.
  - destruct (extract_text page) as [t|e] eqn:Hp.
    + intros H; destruct (IH _ H) as (good & texts & bad & rest & -> & Hall & Hbad).
      exists (page :: good), (t :: texts), bad, rest.
      split; [reflexivity|]; split; [constructor; assumption | exact Hbad].
    + intros [= <-]; exists [], [], page, pages.
      split; [reflexivity|]; split; [constructor | exact Hp].
Qed.

(** The loop asks exactly the pages [pages_visited] counts, from left to
    right. *)
Lemma for_page_num_visits (rest before : list Page) (acc : pystr) (w : World) :
  snd (for_page_num extract_text (before ++ rest)
         (seq (List.length before) (List.length rest)) acc w)
  = w ++ map CallExtractText
           (seq (List.length before) (pages_visited extract_text rest)).
Proof.
  revert before acc w; induction rest as [|page rest IH]; intros before acc w.
  - simpl; symmetry; apply app_nil_r.
  - cbn [List.length seq for_page_num pages_visited].
    unfold bind, getitem.
    rewrite nth_error_app2 by lia.
    rewrite Nat.sub_diag; cbn [nth_error ret call_extract_text].
    destruct (extract_text page) as [t|e]; [|reflexivity].
    replace (before ++ page :: rest) with ((before ++ [page]) ++ rest)
      by (rewrite <- app_assoc; reflexivity).
    replace (S (List.length before)) with (List.length (before ++ [page]))
      by (rewrite length_app; simpl; lia).
    rewrite IH, <- app_assoc, length_app.
    cbn [List.length seq map app]; rewrite Nat.add_1_r; reflexivity.
Qed.

Lemma extract_visits (pdf_file : bytes) (pages : list Page) (w : World) :
  PdfReader pdf_file = Return pages ->
  snd (extract_text_from_pdf PdfReader extract_text pdf_file w)
  = w ++ CallPdfReader pdf_file
         :: map CallExtractText (seq 0 (pages_visited extract_text pages)).
Proof.
  intros Hparse.
  unfold extract_text_from_pdf, try_except, bind, call_PdfReader, range.
  rewrite Hparse.
  pose proof (for_page_num_visits pages [] [] (w ++ [CallPdfReader pdf_file])) as H.
  cbn [app List.length] in H.
  destruct (for_page_num extract_text pages (seq 0 (List.length pages)) []
              (w ++ [CallPdfReader pdf_file])) as [r w'].
  cbn [snd] in H; subst w'.
  destruct r; cbn; rewrite <- app_assoc; reflexivity.
Qed.

Lemma pages_visited_all (pages : list Page) (texts : list pystr) :
  Forall2 page_ok pages texts ->
  pages_visited extract_text pages = List.length pages.
Proof.
  induction 1 as [|page t pages texts Hp _ IH]; cbn [pages_visited List.length];
    [reflexivity|].
  rewrite Hp, IH; reflexivity.
Qed.

Lemma pages_visited_until (good : list Page) (texts : list pystr) (bad : Page)
  (rest : list Page) (cause : PyExc) :
  Forall2 page_ok good texts ->
  extract_text bad = Raise cause ->
  pages_visited extract_text (good ++ bad :: rest) = S (List.length good).
Proof.
  intros H Hbad; induction H as [|page t good texts Hp _ IH];
    cbn [app pages_visited List.length].
  - rewrite Hbad; reflexivity.
  - rewrite Hp, IH; reflexivity.
Qed.

(** X1: the extractor has two outcomes and no third.  Either the document
    opened and every page gave its text, and the result is the trimmed
    concatenation; or opening the document or some page (every page before
    it having given its text) raised, and the result is an [HTTPException]
    with status 400 that embeds [str] of what was raised.  The loop itself
    never fails: an index out of range is not among the causes. *)
Theorem extractor_outcomes (pdf_file : bytes) (w : World) :
  (exists pages texts,
     PdfReader pdf_file = Return pages
     /\ Forall2 (fun page t => extract_text page = Return t) pages texts
     /\ fst (extract_text_from_pdf PdfReader extract_text pdf_file w)
        = Return (strip (join_pages texts)))
  \/ (exists cause,
        (PdfReader pdf_file = Raise cause
         \/ exists good texts bad rest,
              PdfReader pdf_file = Return (good ++ bad :: rest)
              /\ Forall2 (fun page t => extract_text page = Return t) good texts
              /\ extract_text bad = Raise cause)
        /\ fst (extract_text_from_pdf PdfReader extract_text pdf_file w)
           = Raise (HTTPException 400 (EXTRACT_ERROR_PREFIX ++ exc_str cause))).
Proof.
  rewrite extract_outcome; unfold extraction_outcome.
  destruct (PdfReader pdf_file) as [pages|cause] eqn:Hparse.
  - destruct (pages_text extract_text pages []) as [text_content|cause] eqn:Hp.
    + left; apply pages_text_return in Hp as (texts & Hall & ->).
      exists pages, texts; auto.
    + right; exists cause; split; [|reflexivity].
      right; apply pages_text_raise in Hp as (good & texts & bad & rest & -> & Hall & Hbad).
      exists good, texts, bad, rest; auto.
  - right; exists cause; split; [left|]; reflexivity.
Qed.

(** X2: on a document whose pages all give their text, the extractor
    opens the document once and then asks every page for its text exactly
    once, in page order, and does nothing else. *)
Theorem extractor_visits_every_page (pdf_file : bytes) (pages : list Page)
  (texts : list pystr) (w : World) :
  PdfReader pdf_file = Return pages ->
  Forall2 (fun page t => extract_text page = Return t) pages texts ->
  snd (extract_text_from_pdf PdfReader extract_text pdf_file w)
  = w ++ CallPdfReader pdf_file
         :: map CallExtractText (seq 0 (List.length pages)).
Proof.
  intros Hparse Hall.
  rewrite (extract_visits _ _ _ Hparse), (pages_visited_all _ _ Hall); reflexivity.
Qed.

(** X3: the first page that fails ends the extraction: the document is
    opened, the pages up to and including the failing one are asked for
    their text, and the pages after it are never touched. *)
Theorem extractor_stops_at_first_failure (pdf_file : bytes) (w : World)
  (cause : PyExc) (good : list Page) (texts : list pystr) (bad : Page)
  (rest : list Page) :
  PdfReader pdf_file = Return (good ++ bad :: rest) ->
  Forall2 (fun page t => extract_text page = Return t) good texts ->
  extract_text bad = Raise cause ->
  snd (extract_text_from_pdf PdfReader extract_text pdf_file w)
  = w ++ CallPdfReader pdf_file
         :: map CallExtractText (seq 0 (S (List.length good))).
Proof.
  intros Hparse Hall Hbad.
  rewrite (extract_visits _ _ _ Hparse), (pages_visited_until _ _ _ _ _ Hall Hbad).
  reflexivity.
Qed.

(** X4: pages are separated by newlines, not terminated by them: on a
    document whose pages all give their text the extractor returns the trim
    of the texts with one newline between consecutive pages. *)
Theorem extractor_separates_pages (pdf_file : bytes) (pages : list Page)
  (texts : list pystr) (w : World) :
  PdfReader pdf_file = Return pages ->
  Forall2 (fun page t => extract_text page = Return t) pages texts ->
  fst (extract_text_from_pdf PdfReader extract_text pdf_file w)
  = Return (strip (sep_join texts)).
Proof.
  intros Hparse Hall.
  rewrite (extract_ok _ _ _ _ _ _ w Hparse Hall), strip_join_pages; reflexivity.
Qed.

End ExtractorCases.

(** ** More about the generator and the handler *)

Section HandlerCases.

Variable Page : Type.
Variable PdfReader : bytes -> Result (list Page).
Variable extract_text : Page -> Result pystr.
Variable generate_content : World -> GenerateContentCall -> Result GenerateContentResponse.

Lemma generation_outcome_cases (r : Result GenerateContentResponse) :
  (exists answer, answer <> [] /\ r = Return {| text := Some answer |}
                  /\ generation_outcome r = Return answer)
  \/ (exists cause,
        generation_outcome r
        = Raise (HTTPException 500 (GENERATE_ERROR_PREFIX ++ cause))).
Proof.
  destruct r as [[[[|c t]|]]|e]; cbn [generation_outcome].
  - right; eexists; reflexivity.
  - left; exists (c :: t); repeat split; discriminate.
  - right; eexists; reflexivity.
  - right; eexists; reflexivity.
Qed.

Lemma slice_to_limit (pdf_text : pystr) :
  slice_to PROMPT_TEXT_LIMIT pdf_text = firstn (Z.to_nat 12000) pdf_text.
Proof. reflexivity. Qed.

(** X5: the generator never returns an empty string and never raises
    anything but an [HTTPException] with status 500 whose detail starts with
    the fixed words.  What it returns is the text the service answered its
    one request with. *)
Theorem generator_outcomes (pdf_text : pystr) (w : World) :
  (exists answer,
     answer <> []
     /\ generate_content w (generation_request pdf_text)
        = Return {| text := Some answer |}
     /\ fst (generate_meme_explanation generate_content pdf_text w) = Return answer)
  \/ (exists cause,
        fst (generate_meme_explanation generate_content pdf_text w)
        = Raise (HTTPException 500 (GENERATE_ERROR_PREFIX ++ cause))).
Proof.
  rewrite generate_run; cbn [fst].
  destruct (generation_outcome_cases
              (generate_content w (generation_request pdf_text)))
    as [(answer & Hne & Hr & Ho) | (cause & Ho)].
  - left; exists answer; auto.
  - right; exists cause; exact Ho.
Qed.

(** X6: the prompt is the fixed prefix followed by [min(len(text), 12000)]
    characters, and removing the prefix gives back the first 12000
    characters of the text; the model, the system instruction and the
    sampling parameters do not depend on the text. *)
Theorem prompt_shape (pdf_text other : pystr) :
  len (contents (generation_request pdf_text))
  = len USER_PROMPT_PREFIX + Z.min (len pdf_text) 12000
  /\ skipn (List.length USER_PROMPT_PREFIX) (contents (generation_request pdf_text))
     = firstn (Z.to_nat 12000) pdf_text
  /\ model (generation_request pdf_text) = model (generation_request other)
  /\ config (generation_request pdf_text) = config (generation_request other).
Proof.
  cbn [generation_request contents model config]; rewrite slice_to_limit.
  split; [|split; [|split; reflexivity]].
  - unfold len; rewrite length_app, length_firstn; lia.
  - rewrite skipn_app, Nat.sub_diag, skipn_all; reflexivity.
Qed.

(** X7: a text of at most 12000 characters is sent whole: the prompt is
    the fixed prefix followed by the text itself. *)
Theorem short_text_sent_whole (pdf_text : pystr) :
  len pdf_text <= 12000 ->
  contents (generation_request pdf_text) = USER_PROMPT_PREFIX ++ pdf_text.
Proof.
  intros Hlen; cbn [generation_request contents]; rewrite slice_to_limit.
  rewrite firstn_all2; [reflexivity|].
  unfold len in Hlen; lia.
Qed.


(** X9: a document without text (no page, or pages of whitespace only, as
    a scan gives) that passes the type and size checks gets the little-text
    answer: the extractor returns the empty string and the generation
    service is not called. *)
Theorem blank_document_little_text (file : UploadFile) (w : World)
  (pages : list Page) (texts : list pystr) :
  content_type file = Some PDF_MEDIA_TYPE ->
  len_bytes (read file) <= MAX_UPLOAD_BYTES ->
  PdfReader (read file) = Return pages ->
  Forall2 (fun page t => extract_text page = Return t) pages texts ->
  Forall blank texts ->
  fst (extract_text_from_pdf PdfReader extract_text (read file) w) = Return []
  /\ fst (upload_pdf PdfReader extract_text generate_content file w)
     = Return little_text_response
  /\ generation_calls (snd (upload_pdf PdfReader extract_text generate_content file w))
     = generation_calls w.
Proof.
  intros Hct Hlen Hparse Hall Hblank.
  pose proof (extract_ok _ _ _ _ _ _ w Hparse Hall) as Hx.
  rewrite (strip_blank _ (blank_join_pages _ Hblank)) in Hx.
  split; [exact Hx|].
  rewrite handler_valid by assumption; unfold try_except.
  erewrite handler_try_little_text by (try exact Hx; reflexivity).
  split; [reflexivity | apply extract_generation_calls].
Qed.

Lemma surrogate_run_stop (s t : pystr) (c : pychar) :
  is_surrogate c = false ->
  surrogate_run (s ++ c :: t) = surrogate_run (s ++ [c]).
Proof.
  intros Hc; induction s as [|x s IH]; cbn [app surrogate_run].
  - rewrite Hc; reflexivity.
  - destruct (is_surrogate x); [rewrite IH|]; reflexivity.
Qed.

(** The encoder stops inside [s] when [s] holds a surrogate and is
    followed by a character that is none: what comes later is not read. *)
Lemma first_surrogates_stop (s t : pystr) (c : pychar) (pos : nat) :
  utf8_encodable s = false ->
  is_surrogate c = false ->
  first_surrogates (s ++ c :: t) pos = first_surrogates (s ++ [c]) pos.
Proof.
  intros Hs Hc; revert pos Hs; induction s as [|x s IH]; intros pos Hs;
    [discriminate|].
  cbn [app first_surrogates]; cbn [utf8_encodable forallb] in Hs.
  destruct (is_surrogate x).
  - rewrite (surrogate_run_stop s t c Hc); reflexivity.
  - apply IH; exact Hs.
Qed.

Lemma first_surrogates_bound (s : pystr) (pos start stop : nat) :
  first_surrogates s pos = Some (start, stop) ->
  (pos <= start < pos + List.length s)%nat.
Proof.
  revert pos; induction s as [|x s IH]; intros pos; cbn [first_surrogates];
    [discriminate|].
  destruct (is_surrogate x).
  - intros [= <- _]; cbn [List.length]; lia.
  - intros H; apply IH in H; cbn [List.length]; lia.
Qed.

Lemma nth_before_tail (s t : pystr) (c d : pychar) (i : nat) :
  (i < List.length (s ++ [c]))%nat ->
  nth i (s ++ c :: t) d = nth i (s ++ [c]) d.
Proof.
  revert i; induction s as [|x s IH]; intros i; cbn [app List.length].
  - destruct i as [|i]; [reflexivity | cbn [List.length]; lia].
  - destruct i as [|i]; [reflexivity|].
    intros H; cbn [nth]; apply IH; lia.
Qed.

(** Building the success response from an explanation that cannot be
    encoded fails in the same way whatever follows the explanation. *)
Lemma success_outcome_stop (explanation : pystr) (n : Z) (name name' : option pystr) :
  utf8_encodable explanation = false ->
  response_outcome 200 (content (success_response explanation n name))
  = response_outcome 200 (content (success_response explanation n name')).
Proof.
  intros Henc.
  assert (Hhead : utf8_encodable (success_payload_head explanation) = false).
  { unfold success_payload_head; repeat rewrite utf8_encodable_app.
    rewrite utf8_encodable_escaped, Henc, !andb_false_r; reflexivity. }
  assert (Hsplit : forall nm, exists t,
             json_dumps (content (success_response explanation n nm))
             = success_payload_head explanation ++ (34%N : pychar) :: t).
  { intros nm; eexists.
    unfold json_dumps, success_payload_head.
    cbn [success_response content json_items json_value].
    unfold json_string at 3.
    repeat rewrite <- app_assoc; cbn [app]; reflexivity. }
  assert (Hgen : forall t,
             match first_surrogates (success_payload_head explanation ++ (34%N : pychar) :: t) 0 with
             | None => None
             | Some (start, stop) =>
                 Some (unicode_encode_error_str
                         (success_payload_head explanation ++ (34%N : pychar) :: t) start stop)
             end
             = match first_surrogates (success_payload_head explanation ++ [(34%N : pychar)]) 0 with
               | None => None
               | Some (start, stop) =>
                   Some (unicode_encode_error_str
                           (success_payload_head explanation ++ [(34%N : pychar)]) start stop)
               end).
  { intros t; rewrite (first_surrogates_stop _ t (34%N : pychar) 0 Hhead eq_refl).
    destruct (first_surrogates (success_payload_head explanation ++ [(34%N : pychar)]) 0)
      as [[start stop]|] eqn:E; [|reflexivity].
    apply first_surrogates_bound in E.
    unfold unicode_encode_error_str.
    rewrite nth_before_tail by lia; reflexivity. }
  destruct (first_surrogates (success_payload_head explanation ++ [(34%N : pychar)]) 0)
    as [[a0 b0]|] eqn:E0.
  2:{ apply first_surrogates_encodable in E0.
      rewrite utf8_encodable_app, Hhead in E0; discriminate. }
  unfold response_outcome, new_JSONResponse.
  destruct (Hsplit name) as [t ->]; destruct (Hsplit name') as [t' ->].
  pose proof (Hgen t) as H; pose proof (Hgen t') as H'.
  destruct (first_surrogates (success_payload_head explanation ++ (34%N : pychar) :: t) 0)
    as [[a b]|]; [|discriminate].
  destruct (first_surrogates (success_payload_head explanation ++ (34%N : pychar) :: t') 0)
    as [[a' b']|]; [|discriminate].
  unfold raise; cbn [fst]; congruence.
Qed.

(** X10: the filename is only echoed, as long as it can be encoded.  Two
    uploads with the same declared type and the same bytes, under any two
    filenames without surrogate code points (or without a filename), lead to
    the same library calls and the same status; they raise the same
    exception, or return payloads that agree on every key but
    ["filename"]. *)
Theorem filename_only_echoed (file file' : UploadFile) (w : World) :
  content_type file = content_type file' ->
  read file = read file' ->
  utf8_encodable_opt (filename file) = true ->
  utf8_encodable_opt (filename file') = true ->
  snd (upload_pdf PdfReader extract_text generate_content file w)
  = snd (upload_pdf PdfReader extract_text generate_content file' w)
  /\ http_status (fst (upload_pdf PdfReader extract_text generate_content file w))
     = http_status (fst (upload_pdf PdfReader extract_text generate_content file' w))
  /\ match fst (upload_pdf PdfReader extract_text generate_content file w),
           fst (upload_pdf PdfReader extract_text generate_content file' w) with
     | Raise e, Raise e' => e = e'
     | Return resp, Return resp' =>
         forall key, key <> "filename"%string ->
           dict_get (content resp) key = dict_get (content resp') key
     | _, _ => False
     end.
Proof.
  intros Hct Hread Hname Hname'; unfold upload_pdf; rewrite <- Hct, <- Hread.
  destruct (is_pdf_type (content_type file)); cbn [negb].
  2:{ repeat split. }
  destruct (len_bytes (read file) >? MAX_UPLOAD_BYTES).
  { repeat split. }
  unfold try_except, upload_pdf_try, bind.
  destruct (extract_text_from_pdf PdfReader extract_text (read file) w) as [[pdf_text|e] w1].
  - destruct (negb (truthy pdf_text) || (len (strip pdf_text) <? 50)).
    + rewrite new_JSONResponse_frame, response_outcome_ok by reflexivity.
      cbn [fst snd http_status status_code]; repeat split.
    + rewrite generate_run.
      destruct (generation_outcome _) as [answer|[msg|status detail]];
        [| cbn [fst snd raise upload_pdf_except http_status]; repeat split ..].
      rewrite !new_JSONResponse_frame.
      destruct (utf8_encodable answer) eqn:Ha.
      * pose proof (success_payload_encodable answer (len pdf_text) (filename file)) as E.
        pose proof (success_payload_encodable answer (len pdf_text) (filename file')) as E'.
        rewrite Ha, Hname in E; rewrite Ha, Hname' in E'.
        cbn [success_response content] in E, E'.
        rewrite (response_outcome_ok 200 _ E), (response_outcome_ok 200 _ E').
        cbn [fst snd http_status status_code content]; repeat split.
        intros key Hkey; cbn [dict_get].
        repeat (destruct (String.eqb _ key) eqn:?; [reflexivity|]).
        apply String.eqb_neq in Hkey; rewrite String.eqb_sym in Hkey.
        rewrite Hkey; reflexivity.
      * pose proof (success_outcome_stop answer (len pdf_text) (filename file)
                      (filename file') Ha) as E.
        set (o := response_outcome 200
                    (content (success_response answer (len pdf_text) (filename file))))
          in E.
        set (o' := response_outcome 200
                     (content (success_response answer (len pdf_text) (filename file'))))
          in E.
        change (response_outcome 200
                  [("success"%string, JBool true);
                   ("explanation"%string, JStr answer);
                   ("original_length"%string, JInt (len pdf_text));
                   ("filename"%string, json_of_opt (filename file))]) with o.
        change (response_outcome 200
                  [("success"%string, JBool true);
                   ("explanation"%string, JStr answer);
                   ("original_length"%string, JInt (len pdf_text));
                   ("filename"%string, json_of_opt (filename file'))]) with o'.
        clearbody o o'; subst o.
        destruct o' as [resp|[msg|status detail]];
          cbn [fst snd raise upload_pdf_except http_status]; repeat split.
  - destruct e; cbn [fst snd raise upload_pdf_except http_status]; repeat split.
Qed.

End HandlerCases.

(** ** The further properties on the test doubles *)

Section MoreWitnesses.

Import Doubles.

Local Abbreviation handle :=
  (upload_pdf Doubles.PdfReader Doubles.extract_text Doubles.generate_content).
Local Abbreviation extractor :=
  (extract_text_from_pdf Doubles.PdfReader Doubles.extract_text).

(** Two pages: one call to open, one per page. *)
Lemma extractor_visits_every_page_witness :
  snd (extractor (bytes_of_string long_pdf) [])
  = [] ++ CallPdfReader (bytes_of_string long_pdf)
          :: map CallExtractText (seq 0 2).
Proof.
  apply (extractor_visits_every_page _ Doubles.PdfReader Doubles.extract_text
           (bytes_of_string long_pdf) (map (@Return pystr) long_pdf_texts)
           long_pdf_texts []).
  - vm_compute; reflexivity.
  - repeat constructor.
Defined.

(** Three pages, the second broken: the third is never asked. *)
Lemma extractor_stops_at_first_failure_witness :
  snd (extractor (bytes_of_string broken_pdf) [])
  = [] ++ CallPdfReader (bytes_of_string broken_pdf)
          :: map CallExtractText (seq 0 2).
Proof.
  apply (extractor_stops_at_first_failure _ Doubles.PdfReader Doubles.extract_text
           (bytes_of_string broken_pdf) []
           (Exception (lit "broken content stream"))
           [Return (lit "page one")] [lit "page one"]
           (Raise (Exception (lit "broken content stream")))
           [Return (lit "page three")]).
  - vm_compute; reflexivity.
  - repeat constructor.
  - reflexivity.
Defined.

(** Two pages: one newline between them, none at the end. *)
Lemma extractor_separates_pages_witness :
  fst (extractor (bytes_of_string long_pdf) [])
  = Return (strip (lit "  The warranty covers parts for two years. " ++ nl
                   ++ lit "Labour is covered for ninety days only.  ")).
Proof.
  apply (extractor_separates_pages _ Doubles.PdfReader Doubles.extract_text
           (bytes_of_string long_pdf) (map (@Return pystr) long_pdf_texts)
           long_pdf_texts []).
  - vm_compute; reflexivity.
  - repeat constructor.
Defined.

(** A short text is in the prompt as it is. *)
Lemma short_text_sent_whole_witness :
  contents (generation_request (lit "Terms and conditions apply."))
  = USER_PROMPT_PREFIX ++ lit "Terms and conditions apply.".
Proof.
  apply (short_text_sent_whole (lit "Terms and conditions apply.")).
  vm_compute; discriminate.
Defined.

(** Three pages of spaces. *)
Lemma blank_document_little_text_witness :
  fst (extractor (read (upload "application/pdf" blank_pdf)) []) = Return []
  /\ fst (handle (upload "application/pdf" blank_pdf) [])
     = Return little_text_response
  /\ generation_calls (snd (handle (upload "application/pdf" blank_pdf) [])) = [].
Proof.
  apply (blank_document_little_text _ Doubles.PdfReader Doubles.extract_text
           Doubles.generate_content (upload "application/pdf" blank_pdf) []
           (map (@Return pystr) blank_pdf_texts) blank_pdf_texts).
  - reflexivity.
  - vm_compute; discriminate.
  - vm_compute; reflexivity.
  - repeat constructor.
  - repeat constructor.
Defined.

(** The same document with and without a filename. *)
Lemma filename_only_echoed_witness :
  snd (handle (upload "application/pdf" long_pdf) [])
  = snd (handle (unnamed "application/pdf" long_pdf) [])
  /\ http_status (fst (handle (upload "application/pdf" long_pdf) []))
     = http_status (fst (handle (unnamed "application/pdf" long_pdf) []))
  /\ match fst (handle (upload "application/pdf" long_pdf) []),
           fst (handle (unnamed "application/pdf" long_pdf) []) with
     | Raise e, Raise e' => e = e'
     | Return resp, Return resp' =>
         forall key, key <> "filename"%string ->
           dict_get (content resp) key = dict_get (content resp') key
     | _, _ => False
     end.
Proof.
  apply (filename_only_echoed _ Doubles.PdfReader Doubles.extract_text
           Doubles.generate_content (upload "application/pdf" long_pdf)
           (unnamed "application/pdf" long_pdf) []);
    reflexivity.
Defined.

End MoreWitnesses.
